(** * BIST 100 / S&P 500 real-return comparison: a shallow embedding of [main.py]

    The script downloads price and macro-economic series, turns them into
    annualised real returns and prints a comparison.  This development embeds
    its four functions ([get_fred_data], [calculate_real_return],
    [calculate_returns], [main]) and checks the specification's statements
    against them.

    Four modelling decisions, each following the source:

    - Numbers.  The script is duck-typed over its numbers (Python floats and
      NumPy float64 scalars flow through the same arithmetic), so the code is
      embedded once over an interface [Arith].  Two instances are studied:
      [binary64], the IEEE-754 doubles the script runs on (the kernel's
      primitive floats; [**] is the C library's [pow] and stays a parameter),
      and [exact], real arithmetic, which is what the specification's formulas
      mean when rounding is left out.
    - Effects.  Downloads, console output and the chart are events appended to
      a log; the remote services are oracles of a [world]; an uncaught Python
      exception is an outcome of its own ([Raised]).
    - Data.  A downloaded frame is the list of its values in row order (the
      [Close] column for prices, the single data column for FRED series); a
      missing reading is a NaN in that list.
    - Libraries.  The rate aggregation is one line of pandas per rate.  What
      pandas and NumPy compute for it is embedded with the script: the
      forward fill and the row-on-row change of [pct_change], the mean that
      skips missing cells, and the order in which NumPy adds a column. *)

From Stdlib Require Import ZArith List String Bool Lia.
From Stdlib Require Import Floats.
From Stdlib Require Import Reals Lra.
Import ListNotations.

Set Implicit Arguments.

(* ===================================================================== *)
(** * Numbers *)
(* ===================================================================== *)

Declare Scope num_scope.
Delimit Scope num_scope with num.

(** The operations the script applies to its numbers.  [of_Z] is the
    conversion of a Python [int] that meets a float ([1 + x], [x * 12],
    [days / 365.25]); [days_per_year] is the literal [365.25]; [is_zero] is
    the test behind Python's [ZeroDivisionError]; [is_nan] is pandas' notion
    of a missing value. *)
Class Arith (num : Type) : Type := {
  of_Z : Z -> num;
  days_per_year : num;
  add : num -> num -> num;
  sub : num -> num -> num;
  mul : num -> num -> num;
  div : num -> num -> num;
  pow : num -> num -> num;
  is_zero : num -> bool;
  is_nan : num -> bool
}.

Infix "+" := add : num_scope.
Infix "-" := sub : num_scope.
Infix "*" := mul : num_scope.
Infix "/" := div : num_scope.
Infix "**" := pow (at level 30, right associativity) : num_scope.

(** ** IEEE-754 binary64 *)

(** Conversion of an integer to the nearest double, ties to even. *)
Definition float_of_Z (z : Z) : float :=
  SF2Prim (binary_normalize prec emax z 0 false).

(** The literal [365.25] = 1461/4, which binary64 holds exactly. *)
Definition float_365_25 : float := 365.25%float.

(** [libm_pow] is the platform's [pow], which NumPy calls for [**]. *)
Definition binary64 (libm_pow : float -> float -> float) : Arith float := {|
  of_Z := float_of_Z;
  days_per_year := float_365_25;
  add := PrimFloat.add;
  sub := PrimFloat.sub;
  mul := PrimFloat.mul;
  div := PrimFloat.div;
  pow := libm_pow;
  is_zero := PrimFloat.is_zero;
  is_nan := PrimFloat.is_nan
|}.

(** ** Exact real arithmetic *)

(** Rounding-free reading of the same operations.  It agrees with the
    mathematical meaning of the script's formulas wherever no divisor is zero
    and every base of [**] is positive; the theorems that use it say so in
    their hypotheses.  There is no NaN among the reals. *)
Definition exact : Arith R := {|
  of_Z := IZR;
  days_per_year := 365.25%R;
  add := Rplus;
  sub := Rminus;
  mul := Rmult;
  div := Rdiv;
  pow := Rpower;
  is_zero := fun x => if Req_dec_T x 0%R then true else false;
  is_nan := fun _ => false
|}.

(* ===================================================================== *)
(** * Effects: the event log and the outcome of a call *)
(* ===================================================================== *)

(** Calendar dates are day numbers; [(end_date - start_date).days] is their
    difference (both datetimes are midnights, parsed with [%Y-%m-%d]). *)
Definition date := Z.

(** An uncaught Python exception ends the call that raised it and every
    caller up to the top. *)
Inductive exn : Type := ZeroDivisionError | TypeError.

Inductive outcome (A : Type) : Type :=
| Returned (a : A)
| Raised (e : exn).
Arguments Returned {A} a.
Arguments Raised {A} e.

Section Program.

Context {num : Type} {A_num : Arith num}.
Local Open Scope num_scope.

(** What the script prints; the numbers are the values handed to the format
    strings. *)
Inductive message : Type :=
| Data_download_error                       (* "Data download error: ..." *)
| Insufficient_data_found (ticker : string) (* "Insufficient data found: T" *)
| Usdtry_download_error                     (* "USD/TRY data download error: ..." *)
| Insufficient_usdtry_data                  (* "Insufficient USD/TRY data found" *)
| Unable_to_fetch_rates                     (* "Unable to fetch inflation and/or interest rate data" *)
| Initial_investment (tl : num)
| Initial_usdtry_rate (rate : num)
| Final_usdtry_rate (rate : num)
| Results_header (market : string)          (* "\nBIST 100 Results:" *)
| Total_nominal_return (percent : num)
| Annual_real_return (percent : num)
| Final_value (tl : num)
| Calculation_error.                        (* "An error occurred during the calculations." *)

Inductive event : Type :=
| Yf_download (ticker : string) (start_date end_date : date)
| Get_data_fred (series : string) (start_date end_date : date)
| Print (m : message)
| Bar_chart (labels : list string) (values : list num).

(** The remote services: what a request returns, [None] when it raises. *)
Record world : Type := {
  yf_download : string -> date -> date -> option (list num);
  pdr_get_data_fred : string -> date -> date -> option (list num)
}.

(** A computation reads the log so far and returns its outcome with the log
    extended by its own events. *)
Definition run (A : Type) : Type := list event -> outcome A * list event.

Definition ret {A} (a : A) : run A := fun log => (Returned a, log).

Definition bind {A B} (m : run A) (k : A -> run B) : run B :=
  fun log =>
    match m log with
    | (Returned a, log') => k a log'
    | (Raised e, log') => (Raised e, log')
    end.

Definition raise {A} (e : exn) : run A := fun log => (Raised e, log).

Definition emit (e : event) : run unit := fun log => (Returned tt, log ++ [e]).

Definition print (m : message) : run unit := emit (Print m).

End Program.

Arguments message num : clear implicits.
Arguments event num : clear implicits.
Arguments world num : clear implicits.
Arguments run num A : clear implicits.

Notation "x <- m ;; k" := (bind m (fun x => k))
  (at level 61, m at next level, right associativity).
Notation "m ;;; k" := (bind m (fun _ => k))
  (at level 61, right associativity).

(* ===================================================================== *)
(** * The script *)
(* ===================================================================== *)

Section Script.

Context {num : Type} {A_num : Arith num}.
Local Open Scope num_scope.

Variable w : world num.

Local Notation "1" := (of_Z 1) : num_scope.

(** ** [get_fred_data] (lines 8-14) *)

Definition get_fred_data (series : string) (start_date end_date : date)
  : run num (option (list num)) :=
  emit (Get_data_fred series start_date end_date) ;;;
  match pdr_get_data_fred w series start_date end_date with
  | Some data => ret (Some data)
  | None => print Data_download_error ;;; ret None
  end.

(** ** [calculate_real_return] (lines 17-19) *)

Definition calculate_real_return (nominal_return inflation_rate : num) : num :=
  let real_return := (1 + nominal_return) / (1 + inflation_rate) - 1 in
  real_return.

(** ** [calculate_returns] (lines 22-51) *)

(** Python's [x / y] on two Python floats: it raises when [y] is zero.
    ([years] is a Python float, being [int / float]; the other quotients of
    the script are NumPy operations, which do not raise.) *)
Definition py_truediv (x y : num) : run num num :=
  if is_zero y then raise ZeroDivisionError else ret (x / y).

(** [yf.download] inside [try ... except]. *)
Definition try_download (ticker : string) (start_date end_date : date)
  : run num (option (list num)) :=
  emit (Yf_download ticker start_date end_date) ;;;
  ret (yf_download w ticker start_date end_date).

(** The triple the function returns: each component is a number or [None]. *)
Definition triple : Type := (option num * option num * option num)%type.

Definition total_return_of (initial_price final_price : num) : num :=
  (final_price - initial_price) / initial_price.

Definition years_of (start_date end_date : date) : num :=
  of_Z (end_date - start_date) / days_per_year.

(** The match on the shape of [data] is [data.empty or len(data) < 2];
    [initial_price] is [data['Close'].iloc[0]], [final_price] is
    [data['Close'].iloc[-1]].  The [isinstance(..., pd.Series)] step replaces
    a one-element series by its element; numbers are scalars here, so it is
    the identity.  [interest_rate] is a parameter of the source function. *)
Definition calculate_returns (ticker : string) (initial_investment : num)
    (start_date end_date : date) (inflation_rate interest_rate : num)
  : run num triple :=
  data <- try_download ticker start_date end_date ;;
  match data with
  | None =>
      print Data_download_error ;;;
      ret (None, None, None)
  | Some [] | Some [_] =>
      print (Insufficient_data_found ticker) ;;;
      ret (None, None, None)
  | Some (initial_price :: rest) =>
      let final_price := last rest initial_price in
      let total_return := total_return_of initial_price final_price in
      let years := years_of start_date end_date in
      inv_years <- py_truediv 1 years ;;
      let annual_return := (1 + total_return) ** inv_years - 1 in
      let real_annual_return := calculate_real_return annual_return inflation_rate in
      let final_value := initial_investment * (1 + real_annual_return) ** years in
      ret (Some total_return, Some real_annual_return, Some final_value)
  end.

(** ** The rate aggregation of [main] (lines 92-95) *)

(** The arithmetic of these four lines is done by pandas and NumPy.  The
    definitions follow pandas 2 ([DataFrame.pct_change] with its default
    forward fill, [DataFrame.mean] as computed by [nanops.nanmean]) and
    NumPy's [add.reduce] on a float64 column.

    To pandas a cell of a column is a number or missing, and NaN is how a
    float64 column stores a missing cell. *)
Definition cell : Type := option num.

Definition observed (x : num) : cell :=
  if is_nan x then None else Some x.

(** [fillna(method='pad')]: a missing reading takes the last reading before
    it; missing readings at the head of the column stay missing. *)
Fixpoint ffill (previous : cell) (rows : list cell) : list cell :=
  match rows with
  | [] => []
  | Some x :: rest => Some x :: ffill (Some x) rest
  | None :: rest => previous :: ffill previous rest
  end.

(** One row of [data / data.shift(1) - 1]: NaN when an operand is missing,
    and also when the quotient is not a number. *)
Definition change_since (previous current : cell) : cell :=
  match previous, current with
  | Some p, Some c => observed (c / p - 1)
  | _, _ => None
  end.

Fixpoint pct_change_from (previous : cell) (rows : list cell) : list cell :=
  match rows with
  | [] => []
  | x :: rest => change_since previous x :: pct_change_from x rest
  end.

(** pandas' [pct_change]: the column is forward-filled, then every row is
    set against the row before it.  The first row has none before it and is
    missing in the result, which keeps the length of the column. *)
Definition pct_change (rows : list cell) : list cell :=
  pct_change_from None (ffill None rows).

(** NumPy's [pairwise_sum], the loop behind [add.reduce] on a contiguous
    float64 array.  Fewer than 8 values are added from left to right.  Up to
    128 values are added in 8 lanes, lane [j] taking the values at the
    positions [j], [j + 8], ...; the lanes are then added as
    [((r0 + r1) + (r2 + r3)) + ((r4 + r5) + (r6 + r7))], and what is left
    after the last full group of 8 is added to that from left to right.
    More than 128 values are cut in two at a multiple of 8 and the sums of
    the two parts are added. *)
Fixpoint unrolled (r0 r1 r2 r3 r4 r5 r6 r7 : num) (rows : list num) : num :=
  match rows with
  | a0 :: a1 :: a2 :: a3 :: a4 :: a5 :: a6 :: a7 :: rest =>
      unrolled (r0 + a0) (r1 + a1) (r2 + a2) (r3 + a3)
               (r4 + a4) (r5 + a5) (r6 + a6) (r7 + a7) rest
  | _ =>
      fold_left add rows
        (((r0 + r1) + (r2 + r3)) + ((r4 + r5) + (r6 + r7)))
  end.

Definition block_sum (rows : list num) : num :=
  match rows with
  | a0 :: a1 :: a2 :: a3 :: a4 :: a5 :: a6 :: a7 :: rest =>
      unrolled a0 a1 a2 a3 a4 a5 a6 a7 rest
  | _ => fold_left add rows (of_Z 0)
  end.

(** [depth] bounds the number of nested cuts; the length of the array is
    always enough (lemma [pairwise_sum_depth]). *)
Fixpoint pairwise_sum (depth : nat) (rows : list num) : num :=
  match depth with
  | O => block_sum rows
  | S depth =>
      let n := List.length rows in
      if (n <=? 128)%nat then block_sum rows
      else
        let n2 := (n / 2 - (n / 2) mod 8)%nat in
        pairwise_sum depth (firstn n2 rows) + pairwise_sum depth (skipn n2 rows)
  end.

(** [values.sum()]: the reduction starts from zero and adds the pairwise sum
    of the whole column to it. *)
Definition sum (rows : list num) : num :=
  of_Z 0 + pairwise_sum (List.length rows) rows.

(** pandas' [mean] ([skipna=True]): the missing cells count as zero in the
    sum and are left out of the count. *)
Definition fill_zero (c : cell) : num :=
  match c with
  | Some x => x
  | None => of_Z 0
  end.

Definition count (rows : list cell) : nat :=
  List.length (filter (fun c => match c with Some _ => true | None => false end) rows).

Definition mean (rows : list cell) : num :=
  sum (map fill_zero rows) / of_Z (Z.of_nat (count rows)).

Definition inflation_rate_of (series : list num) : num :=
  mean (pct_change (map observed series)) * of_Z 12.

Definition interest_rate_of (series : list num) : num :=
  mean (map observed series) / of_Z 100.

(** ** The currency conversions of [main] (lines 79 and 108-109) *)

Definition to_usd (amount_tl initial_usd_rate : num) : num :=
  amount_tl / initial_usd_rate.

Definition to_tl (amount_usd final_usd_rate : num) : num :=
  amount_usd * final_usd_rate.

(** ** [main] (lines 53-133) *)

(** A number is needed where the value may be [None]: arithmetic on [None]
    raises [TypeError]. *)
Definition number (x : option num) : run num num :=
  match x with
  | Some v => ret v
  | None => raise TypeError
  end.

(** Lines 107-130, the branch taken when both first components are not
    [None]: the conversions back to TRY, the report and the chart, in the
    order in which the script evaluates them. *)
Definition report (initial_investment_tl initial_usd_rate final_usd_rate : num)
    (bist_return : num) (bist_real_annual bist_final_usd : option num)
    (sp500_return : num) (sp500_real_annual sp500_final_usd : option num)
  : run num unit :=
  bist_final_usd <- number bist_final_usd ;;
  let bist_final_tl := to_tl bist_final_usd final_usd_rate in
  sp500_final_usd <- number sp500_final_usd ;;
  let sp500_final_tl := to_tl sp500_final_usd final_usd_rate in
  print (Initial_investment initial_investment_tl) ;;;
  print (Initial_usdtry_rate initial_usd_rate) ;;;
  print (Final_usdtry_rate final_usd_rate) ;;;
  print (Results_header "BIST 100") ;;;
  print (Total_nominal_return (bist_return * of_Z 100)) ;;;
  bist_real_annual <- number bist_real_annual ;;
  print (Annual_real_return (bist_real_annual * of_Z 100)) ;;;
  print (Final_value bist_final_tl) ;;;
  print (Results_header "S&P 500") ;;;
  print (Total_nominal_return (sp500_return * of_Z 100)) ;;;
  sp500_real_annual <- number sp500_real_annual ;;
  print (Annual_real_return (sp500_real_annual * of_Z 100)) ;;;
  print (Final_value sp500_final_tl) ;;;
  emit (Bar_chart ["BIST 100"; "S&P 500"]%string [bist_final_tl; sp500_final_tl]).

(** Lines 98-133: both evaluations, then the report or the error message.
    The test is on the two first components only
    ([bist_return is not None and sp500_return is not None]). *)
Definition evaluate_and_report (initial_investment_tl initial_usd_rate final_usd_rate : num)
    (start_date end_date : date)
    (turkish_inflation us_inflation turkish_interest_rate us_interest_rate : num)
  : run num unit :=
  let initial_investment_usd := to_usd initial_investment_tl initial_usd_rate in
  bist <- calculate_returns "XU100.IS" initial_investment_usd start_date end_date
            turkish_inflation turkish_interest_rate ;;
  sp500 <- calculate_returns "^GSPC" initial_investment_usd start_date end_date
            us_inflation us_interest_rate ;;
  match bist, sp500 with
  | (Some bist_return, bist_real_annual, bist_final_usd),
    (Some sp500_return, sp500_real_annual, sp500_final_usd) =>
      report initial_investment_tl initial_usd_rate final_usd_rate
        bist_return bist_real_annual bist_final_usd
        sp500_return sp500_real_annual sp500_final_usd
  | _, _ => print Calculation_error
  end.

(** The inputs are the three values [main] parses from the console. *)
Definition main (initial_investment_tl : num) (start_date end_date : date)
  : run num unit :=
  usdtry <- try_download "USDTRY=X" start_date end_date ;;
  match usdtry with
  | None => print Usdtry_download_error
  | Some [] | Some [_] => print Insufficient_usdtry_data
  | Some (initial_usd_rate :: rest) =>
      let final_usd_rate := last rest initial_usd_rate in
      turkish_inflation <- get_fred_data "TURCPIALLMINMEI" start_date end_date ;;
      us_inflation <- get_fred_data "CPIAUCSL" start_date end_date ;;
      turkish_interest_rate <- get_fred_data "IR3TIB01TRM156N" start_date end_date ;;
      us_interest_rate <- get_fred_data "FEDFUNDS" start_date end_date ;;
      match turkish_inflation, us_inflation, turkish_interest_rate, us_interest_rate with
      | Some turkish_inflation, Some us_inflation,
        Some turkish_interest_rate, Some us_interest_rate =>
          evaluate_and_report initial_investment_tl initial_usd_rate final_usd_rate
            start_date end_date
            (inflation_rate_of turkish_inflation) (inflation_rate_of us_inflation)
            (interest_rate_of turkish_interest_rate) (interest_rate_of us_interest_rate)
      | _, _, _, _ => print Unable_to_fetch_rates
      end
  end.

End Script.

(* ===================================================================== *)
(** * What [calculate_returns] does, case by case *)
(* ===================================================================== *)

Section Evaluator.

Context {num : Type} {A_num : Arith num}.
Local Open Scope num_scope.

Variable w : world num.

(** The triple computed on a frame of at least two rows (lines 33-51). *)
Definition computed (initial_price final_price initial_investment : num)
    (start_date end_date : date) (inflation_rate : num) : triple :=
  let total_return := total_return_of initial_price final_price in
  let years := years_of start_date end_date in
  let annual_return := (of_Z 1 + total_return) ** (of_Z 1 / years) - of_Z 1 in
  let real_annual_return := calculate_real_return annual_return inflation_rate in
  (Some total_return, Some real_annual_return,
   Some (initial_investment * (of_Z 1 + real_annual_return) ** years)).

Definition failure : triple (num := num) := (None, None, None).

Lemma calculate_returns_download_raises ticker inv s e infl ir log :
  yf_download w ticker s e = None ->
  calculate_returns w ticker inv s e infl ir log
  = (Returned failure, log ++ [Yf_download ticker s e] ++ [Print Data_download_error]).
Proof.
  intros H. unfold calculate_returns, try_download, bind, emit, print, emit, ret.
  rewrite H. now rewrite <- app_assoc.
Qed.

Lemma calculate_returns_insufficient ticker inv s e infl ir log data :
  yf_download w ticker s e = Some data ->
  (List.length data < 2)%nat ->
  calculate_returns w ticker inv s e infl ir log
  = (Returned failure,
     log ++ [Yf_download ticker s e] ++ [Print (Insufficient_data_found ticker)]).
Proof.
  intros H Hlen. unfold calculate_returns, try_download, bind, emit, print, emit, ret.
  rewrite H.
  destruct data as [|x [|y rest]]; simpl in Hlen; try lia; now rewrite <- app_assoc.
Qed.

Lemma calculate_returns_zero_years ticker inv s e infl ir log x y rest :
  yf_download w ticker s e = Some (x :: y :: rest) ->
  is_zero (years_of s e) = true ->
  calculate_returns w ticker inv s e infl ir log
  = (Raised ZeroDivisionError, log ++ [Yf_download ticker s e]).
Proof.
  intros H Hz.
  unfold calculate_returns, try_download, py_truediv, bind, emit, ret, raise.
  rewrite H, Hz. reflexivity.
Qed.

Lemma calculate_returns_computes ticker inv s e infl ir log x y rest :
  yf_download w ticker s e = Some (x :: y :: rest) ->
  is_zero (years_of s e) = false ->
  calculate_returns w ticker inv s e infl ir log
  = (Returned (computed x (last (y :: rest) x) inv s e infl),
     log ++ [Yf_download ticker s e]).
Proof.
  intros H Hz.
  unfold calculate_returns, try_download, py_truediv, bind, emit, ret, raise.
  rewrite H, Hz. reflexivity.
Qed.

(** Every call falls under exactly one of the four cases. *)
Inductive evaluation : Type :=
| Download_raised
| Too_short (data : list num)
| Zero_years (x y : num) (rest : list num)
| Evaluated (x y : num) (rest : list num).

Definition classify (ticker : string) (s e : date) : evaluation :=
  match yf_download w ticker s e with
  | None => Download_raised
  | Some (x :: y :: rest) =>
      if is_zero (years_of s e) then Zero_years x y rest else Evaluated x y rest
  | Some data => Too_short data
  end.

Lemma calculate_returns_cases ticker inv s e infl ir log :
  calculate_returns w ticker inv s e infl ir log =
  match classify ticker s e with
  | Download_raised =>
      (Returned failure, log ++ [Yf_download ticker s e] ++ [Print Data_download_error])
  | Too_short _ =>
      (Returned failure,
       log ++ [Yf_download ticker s e] ++ [Print (Insufficient_data_found ticker)])
  | Zero_years _ _ _ => (Raised ZeroDivisionError, log ++ [Yf_download ticker s e])
  | Evaluated x y rest =>
      (Returned (computed x (last (y :: rest) x) inv s e infl),
       log ++ [Yf_download ticker s e])
  end.
Proof.
  unfold classify.
  destruct (yf_download w ticker s e) as [data|] eqn:H.
  - destruct data as [|x [|y rest]].
    + apply calculate_returns_insufficient with (data := []); auto.
    + apply calculate_returns_insufficient with (data := [x]); auto.
    + destruct (is_zero (years_of s e)) eqn:Hz.
      * now apply calculate_returns_zero_years with (1 := H).
      * now apply calculate_returns_computes with (1 := H).
  - now apply calculate_returns_download_raises.
Qed.

End Evaluator.

(* ===================================================================== *)
(** * Facts about the two number systems *)
(* ===================================================================== *)

Section ExactFacts.

Local Open Scope R_scope.
Local Existing Instance exact.

Lemma exact_is_zero_false (x : R) : x <> 0 -> is_zero x = false.
Proof. intros H. simpl. now destruct (Req_dec_T x 0). Qed.

Lemma exact_is_zero_true (x : R) : x = 0 -> is_zero x = true.
Proof. intros H. simpl. now destruct (Req_dec_T x 0). Qed.

Lemma exact_years_of (s e : date) :
  years_of s e = IZR (e - s) / 365.25.
Proof. reflexivity. Qed.

(** In exact arithmetic a range is zero years long only when it is empty. *)
Lemma exact_years_nonzero (s e : date) :
  s <> e -> is_zero (years_of s e) = false.
Proof.
  intros H. apply exact_is_zero_false. rewrite exact_years_of.
  assert (IZR (e - s) <> 0) by (apply not_0_IZR; lia).
  unfold Rdiv. apply Rmult_integral_contrapositive_currified; [assumption | lra].
Qed.

End ExactFacts.

(** A range from a date to the same date is zero years long, on doubles and
    in exact arithmetic. *)
Lemma binary64_zero_years (libm_pow : float -> float -> float) (day : date) :
  is_zero (Arith := binary64 libm_pow) (years_of (A_num := binary64 libm_pow) day day) = true.
Proof. unfold years_of. rewrite Z.sub_diag. reflexivity. Qed.

Lemma exact_zero_years (day : date) :
  is_zero (Arith := exact) (years_of (A_num := exact) day day) = true.
Proof.
  apply exact_is_zero_true. rewrite exact_years_of, Z.sub_diag.
  unfold Rdiv. apply Rmult_0_l.
Qed.

(** Worlds for concrete runs: every price request returns [prices], every
    FRED request returns [macro]. *)
Definition constant_world {num : Type} (prices macro : option (list num)) : world num :=
  {| yf_download := fun _ _ _ => prices;
     pdr_get_data_fred := fun _ _ _ => macro |}.

(* ===================================================================== *)
(** * The evaluator's error handling and its unused parameter *)
(* ===================================================================== *)

(** No usable frame: the download raised, or it has fewer than two rows. *)
Definition unavailable {num : Type} (data : option (list num)) : bool :=
  match data with
  | None | Some [] | Some [_] => true
  | Some (_ :: _ :: _) => false
  end.

Lemma unavailable_spec {num : Type} (data : option (list num)) :
  unavailable data = true <->
  data = None \/ exists rows, data = Some rows /\ (List.length rows < 2)%nat.
Proof.
  split.
  - destruct data as [[|x [|y rest]]|]; simpl; intros H; try discriminate; auto;
      right; eexists; split; try reflexivity; simpl; lia.
  - intros [->|[rows [-> Hlen]]]; [reflexivity|].
    destruct rows as [|x [|y rest]]; simpl in *; auto; lia.
Qed.

(** The test of line 106 on one triple: [x is not None] on its first
    component. *)
Definition first_is_none {num : Type} (t : option num * option num * option num) : bool :=
  match t with
  | (None, _, _) => true
  | (Some _, _, _) => false
  end.

Section EvaluatorClaims.

Context {num : Type} {A_num : Arith num}.
Variable w : world num.

(** Whatever the outcome, a returned triple is never mixed. *)
Lemma calculate_returns_never_mixed ticker inv s e infl ir log t :
  fst (calculate_returns w ticker inv s e infl ir log) = Returned t ->
  t = failure \/ exists tr real fv, t = (Some tr, Some real, Some fv).
Proof.
  rewrite calculate_returns_cases.
  destruct (classify w ticker s e); simpl; intros H; inversion H; subst; auto.
  right. unfold computed. eauto.
Qed.

Lemma calculate_returns_fails_iff ticker inv s e infl ir log :
  fst (calculate_returns w ticker inv s e infl ir log) = Returned failure
  <-> unavailable (yf_download w ticker s e) = true.
Proof.
  rewrite calculate_returns_cases. unfold classify.
  destruct (yf_download w ticker s e) as [[|x [|y rest]]|]; simpl;
    try (split; reflexivity).
  destruct (is_zero (years_of s e)); simpl; split; intros H; discriminate H.
Qed.

End EvaluatorClaims.

(** C9.  The interest rate is a dead input of the evaluator: two calls that
    differ only in [interest_rate] (same ticker, investment, dates, inflation,
    same answers of the data service, same log so far) have the same outcome
    and leave the same log. *)
Theorem calculate_returns_ignores_interest_rate :
  forall (num : Type) (A_num : Arith num) (w : world num)
         (ticker : string) (initial_investment : num) (start_date end_date : date)
         (inflation_rate r1 r2 : num) (log : list (event num)),
    calculate_returns w ticker initial_investment start_date end_date inflation_rate r1 log
    = calculate_returns w ticker initial_investment start_date end_date inflation_rate r2 log.
Proof.
  intros. rewrite !calculate_returns_cases. reflexivity.
Qed.

(** C10, the claim as stated fails: not every call returns a triple.  On a
    frame of two rows and a range from a day to the same day the call ends
    with [ZeroDivisionError] at [1/years] and returns nothing, on doubles
    and in exact arithmetic. *)
Lemma calculate_returns_zero_range_raises :
  (forall libm_pow : float -> float -> float,
      fst (calculate_returns (A_num := binary64 libm_pow)
             (constant_world (Some [100; 150]%float) None)
             "XU100.IS" 1000%float 738000%Z 738000%Z 0%float 0%float [])
      = Raised ZeroDivisionError)
  /\ fst (calculate_returns (A_num := exact) (constant_world (Some [100; 150]%R) None)
            "XU100.IS" 1000%R 738000%Z 738000%Z 0%R 0%R [])
     = Raised ZeroDivisionError.
Proof.
  split; [intros libm_pow|]; rewrite calculate_returns_cases; unfold classify;
    simpl yf_download.
  - now rewrite binary64_zero_years.
  - now rewrite exact_zero_years.
Qed.

(** C10 (as amended).  A call that returns, returns all or nothing: the
    failure triple [(None, None, None)] or three numbers, never a mixture,
    so the first component is [None] exactly when the triple is the failure
    triple.  The one call that does not return is the call on a frame of two
    or more rows and a range that is zero years long: it raises
    [ZeroDivisionError]. *)
Theorem calculate_returns_all_or_nothing :
  forall (num : Type) (A_num : Arith num) (w : world num)
         (ticker : string) (initial_investment : num) (start_date end_date : date)
         (inflation_rate interest_rate : num) (log : list (event num)),
    match fst (calculate_returns w ticker initial_investment start_date end_date
                 inflation_rate interest_rate log) with
    | Returned t =>
        (t = failure \/ exists tr real fv, t = (Some tr, Some real, Some fv))
        /\ (first_is_none t = true <-> t = failure)
        /\ (unavailable (yf_download w ticker start_date end_date) = true
            \/ is_zero (years_of start_date end_date) = false)
    | Raised ex =>
        ex = ZeroDivisionError
        /\ unavailable (yf_download w ticker start_date end_date) = false
        /\ is_zero (years_of start_date end_date) = true
    end.
Proof.
  intros num A_num w ticker inv s e infl ir log.
  rewrite calculate_returns_cases. unfold classify.
  destruct (yf_download w ticker s e) as [[|x [|y rest]]|]; simpl.
  1,2,4: split; [left; reflexivity|split; [split; reflexivity|left; reflexivity]].
  destruct (is_zero (years_of s e)); simpl.
  - repeat split.
  - unfold computed. split; [right; eauto|].
    split; [split; intros H; discriminate H|right; reflexivity].
Qed.

(** C4 (as amended).  The evaluator returns the failure triple exactly when
    the download raised or delivered fewer than two rows; a frame of one row
    makes it print the insufficient-data message.  It does not look at the
    order of the two dates: on two or more rows and a range that is not zero
    years long it returns three numbers, also when the end date is before
    the start date. *)
Theorem calculate_returns_failure_signal :
  forall (num : Type) (A_num : Arith num) (w : world num)
         (ticker : string) (initial_investment : num) (start_date end_date : date)
         (inflation_rate interest_rate : num) (log : list (event num)),
    let result := calculate_returns w ticker initial_investment start_date end_date
                    inflation_rate interest_rate log in
    (fst result = Returned failure
     <-> unavailable (yf_download w ticker start_date end_date) = true)
    /\ match yf_download w ticker start_date end_date with
       | Some [_] =>
           result = (Returned failure,
                     log ++ [Yf_download ticker start_date end_date;
                             Print (Insufficient_data_found ticker)])
       | Some (x :: y :: rest) =>
           if is_zero (years_of start_date end_date) then True
           else fst result
                = Returned (computed x (last (y :: rest) x) initial_investment
                              start_date end_date inflation_rate)
       | _ => True
       end.
Proof.
  intros num A_num w ticker inv s e infl ir log result. split.
  - apply calculate_returns_fails_iff.
  - subst result. rewrite calculate_returns_cases. unfold classify.
    destruct (yf_download w ticker s e) as [[|x [|y rest]]|]; simpl; auto.
    destruct (is_zero (years_of s e)); simpl; auto.
Qed.

(** C4, the claim as stated fails: two rows and an end date a year before
    the start date give three numbers, not the failure triple. *)
Lemma calculate_returns_reversed_range_computes :
  exists tr real fv : R,
    fst (calculate_returns (A_num := exact) (constant_world (Some [100; 150]%R) None)
           "XU100.IS" 1000%R 365%Z 0%Z 0%R 0%R [])
    = Returned (Some tr, Some real, Some fv)
    /\ (years_of (A_num := exact) 365%Z 0%Z < 0)%R.
Proof.
  do 3 eexists. split.
  - rewrite calculate_returns_cases. unfold classify. simpl yf_download.
    rewrite exact_years_nonzero by lia. reflexivity.
  - rewrite exact_years_of. simpl. lra.
Qed.

(* ===================================================================== *)
(** * The total return (lines 33-36) *)
(* ===================================================================== *)

(** ** Rounding of binary64 sums and quotients

    The two facts the claims need about doubles, from the specification of
    the primitive operations ([SpecFloat]): a finite nonzero double divided
    by itself is exactly one, and one plus a finite double above minus one
    is again a finite nonzero double (no cancellation to zero, no overflow
    to infinity, not even after rounding). *)

Unset Implicit Arguments.

Section Binary64Integers.

Local Open Scope Z_scope.

(** *** Digits, shifts and the rounding of a mantissa *)

Lemma digits2_size p : digits2_pos p = Pos.size p.
Proof. induction p; simpl; congruence. Qed.

Lemma digits_bounds p :
  2 ^ (Zpos (digits2_pos p) - 1) <= Zpos p < 2 ^ Zpos (digits2_pos p).
Proof.
  rewrite digits2_size. split.
  - pose proof (Pos.size_le p) as H.
    apply Pos2Z.pos_le_pos in H. rewrite Pos2Z.inj_pow in H.
    change (Z.pos p~0) with (2 * Z.pos p) in H.
    replace (Z.pos (Pos.size p)) with (Z.succ (Z.pos (Pos.size p) - 1)) in H by lia.
    rewrite Z.pow_succ_r in H by lia. lia.
  - pose proof (Pos.size_gt p) as H.
    apply Pos2Z.pos_lt_pos in H. now rewrite Pos2Z.inj_pow in H.
Qed.

Lemma digits_unique p k :
  2 ^ (k - 1) <= Zpos p < 2 ^ k -> Zpos (digits2_pos p) = k.
Proof.
  intros [Hlo Hhi]. pose proof (digits_bounds p) as [Dlo Dhi].
  set (d := Zpos (digits2_pos p)) in *.
  assert (0 < k).
  { destruct (Z.lt_trichotomy k 0) as [Hk|[Hk|Hk]]; try lia.
    - rewrite Z.pow_neg_r in Hhi by lia. lia.
    - subst k. simpl in Hhi. lia. }
  destruct (Z.lt_trichotomy d k) as [Hk|[Hk|Hk]]; try lia.
  - assert (2 ^ d <= 2 ^ (k - 1)) by (apply Z.pow_le_mono_r; lia). lia.
  - assert (2 ^ k <= 2 ^ (d - 1)) by (apply Z.pow_le_mono_r; lia). lia.
Qed.

Lemma iter_xO m d : Zpos (Pos.iter xO m d) = Zpos m * 2 ^ Zpos d.
Proof.
  induction d using Pos.peano_ind.
  - simpl. lia.
  - rewrite Pos.iter_succ, Pos2Z.inj_succ, Z.pow_succ_r by lia.
    change (Z.pos (Pos.iter xO m d)~0) with (2 * Z.pos (Pos.iter xO m d)).
    rewrite IHd. ring.
Qed.

Lemma iter_pos_nat {A : Type} (f : A -> A) p x :
  SpecFloat.iter_pos f p x = Nat.iter (Pos.to_nat p) f x.
Proof.
  revert x. induction p as [p IH|p IH|]; intros x; cbn [SpecFloat.iter_pos].
  - rewrite !IH. rewrite Pos2Nat.inj_xI.
    replace (S (2 * Pos.to_nat p))%nat with (Pos.to_nat p + (Pos.to_nat p + 1))%nat by lia.
    rewrite !Nat.iter_add. simpl. reflexivity.
  - rewrite !IH. rewrite Pos2Nat.inj_xO.
    replace (2 * Pos.to_nat p)%nat with (Pos.to_nat p + Pos.to_nat p)%nat by lia.
    now rewrite Nat.iter_add.
  - reflexivity.
Qed.

Lemma shr_1_spec mrs :
  0 <= shr_m mrs ->
  shr_m (shr_1 mrs) = shr_m mrs / 2 /\ shr_r (shr_1 mrs) = Z.odd (shr_m mrs).
Proof.
  destruct mrs as [m r s]. simpl. intros Hm. rewrite <- Z.div2_div.
  destruct m as [|[p|p|]|p]; simpl; auto. lia.
Qed.

Lemma shr_iter M k :
  0 <= M ->
  shr_m (Nat.iter k shr_1 {| shr_m := M; shr_r := false; shr_s := false |})
  = M / 2 ^ Z.of_nat k
  /\ ((0 < k)%nat ->
      shr_r (Nat.iter k shr_1 {| shr_m := M; shr_r := false; shr_s := false |})
      = Z.odd (M / 2 ^ (Z.of_nat k - 1))).
Proof.
  intros HM. induction k as [|k IH].
  - simpl. split; [now rewrite Z.div_1_r|lia].
  - destruct IH as [IHm IHr].
    change (Nat.iter (S k) shr_1 ?x) with (shr_1 (Nat.iter k shr_1 x)).
    set (mrs := Nat.iter k shr_1 _) in *.
    assert (0 <= shr_m mrs) by (rewrite IHm; apply Z.div_pos; lia).
    destruct (shr_1_spec mrs H) as [Em Er].
    rewrite Nat2Z.inj_succ. split.
    + rewrite Em, IHm, Z.div_div by lia.
      now rewrite Z.pow_succ_r, (Z.mul_comm 2) by lia.
    + intros _. rewrite Er, IHm. do 3 f_equal. lia.
Qed.

Lemma fexp_eq x : fexp prec emax x = Z.max (x - 53) (-1074).
Proof. reflexivity. Qed.

Lemma round_nearest_even_spec m r s :
  let m' := round_nearest_even m
              (loc_of_shr_record {| shr_m := m; shr_r := r; shr_s := s |}) in
  (m' = m \/ m' = m + 1) /\ (r = false -> m' = m).
Proof.
  destruct r, s; simpl; try destruct (Z.even m); auto; split; auto; discriminate.
Qed.

(** digits of a shifted mantissa *)
Lemma digits_shift M k :
  0 <= k -> 
  forall q, Zpos q = Zpos M * 2 ^ k ->
  Zpos (digits2_pos q) = Zpos (digits2_pos M) + k.
Proof.
  intros Hk q Hq. apply digits_unique. rewrite Hq.
  pose proof (digits_bounds M) as [Lo Hi].
  assert (0 < 2 ^ k) by (apply Z.pow_pos_nonneg; lia).
  replace (Z.pos (digits2_pos M) + k - 1) with ((Z.pos (digits2_pos M) - 1) + k) by lia.
  rewrite !Z.pow_add_r by lia. split; nia.
Qed.

Lemma pow2_lt_inv a b : 0 <= b -> 2 ^ a < 2 ^ b -> a < b.
Proof. intros Hb H. apply (Z.pow_lt_mono_r_iff 2); lia. Qed.

Lemma binary_round_finite (M : positive) (ez : Z) :
  -1074 <= ez <= 0 ->
  Zpos M * 2 ^ (ez + 1074) < (2 ^ 54 - 1) * 2 ^ 2044 ->
  exists m' e', binary_round prec emax false M ez = S754_finite false m' e'.
Proof.
  intros Hez Hbound.
  pose proof (digits_bounds M) as [Dlo Dhi].
  set (d := Zpos (digits2_pos M)) in *.
  assert (Hd : 0 < d) by (unfold d; lia).
  (* the value is below 2^1024 *)
  assert (HD : d + ez <= 1024).
  { assert (2 ^ (d - 1 + (ez + 1074)) < 2 ^ 2098).
    { rewrite Z.pow_add_r by lia.
      assert (0 < 2 ^ (ez + 1074)) by (apply Z.pow_pos_nonneg; lia).
      change (2 ^ 2098) with (2 ^ 54 * 2 ^ 2044).
      assert (0 < 2 ^ 2044) by (apply Z.pow_pos_nonneg; lia).
      nia. }
    apply pow2_lt_inv in H; lia. }
  unfold binary_round. fold d. rewrite fexp_eq.
  set (E := Z.max (d + ez - 53) (-1074)).
  assert (HE : E <= 971) by (unfold E; lia).
  unfold shl_align.
  destruct (E - ez) as [|p|p] eqn:Hs.
  - (* already aligned *)
    unfold binary_round_aux, shr_fexp. cbn [Zdigits2 shr_record_of_loc]. fold d.
    rewrite fexp_eq. fold E. rewrite Hs. cbn [shr shr_m loc_of_shr_record round_nearest_even].
    cbn [Zdigits2 shr_record_of_loc]. fold d. rewrite fexp_eq. fold E. rewrite Hs.
    cbn [shr shr_m].
    replace (ez <=? emax - prec) with true by (symmetry; apply Z.leb_le; unfold emax, prec; lia).
    eauto.
  - (* to be shifted right by p = d - 53 bits, with rounding *)
    assert (Hp : Zpos p = d - 53) by (unfold E in Hs; lia).
    assert (HEp : ez + Zpos p = E) by lia.
    unfold binary_round_aux, shr_fexp.
    cbn [Zdigits2 shr_record_of_loc]. fold d. rewrite fexp_eq. fold E. rewrite Hs.
    cbn [shr]. rewrite HEp, iter_pos_nat.
    destruct (shr_iter (Zpos M) (Pos.to_nat p) ltac:(lia)) as [Hm Hr].
    rewrite positive_nat_Z in Hm, Hr. specialize (Hr (Pos2Nat.is_pos p)).
    set (mrs := Nat.iter (Pos.to_nat p) shr_1 _) in *.
    assert (P2 : 0 < 2 ^ Zpos p) by (apply Z.pow_pos_nonneg; lia).
    assert (Hm1 : 2 ^ 52 <= shr_m mrs < 2 ^ 53).
    { rewrite Hm. split.
      - apply Z.div_le_lower_bound; [lia|].
        replace (d - 1) with (Zpos p + 52) in Dlo by lia.
        rewrite Z.pow_add_r in Dlo by lia. lia.
      - apply Z.div_lt_upper_bound; [lia|].
        replace d with (Zpos p + 53) in Dhi by lia.
        rewrite Z.pow_add_r in Dhi by lia. lia. }
    destruct mrs as [m1 r1 s1] eqn:Emrs. cbn [shr_m shr_r] in *.
    destruct (round_nearest_even_spec m1 r1 s1) as [Hround Hdown].
    set (m2 := round_nearest_even m1 _) in *.
    assert (Hm2 : 2 ^ 52 <= m2 <= 2 ^ 53) by lia.
    destruct m2 as [|q|q] eqn:Em2; try lia.
    cbn [Zdigits2 shr_record_of_loc].
    destruct (Z.eq_dec (Zpos q) (2 ^ 53)) as [Hcarry|Hnocarry].
    + (* the mantissa was rounded up to 2^53 *)
      assert (Hq : q = 9007199254740992%positive) by (apply Pos2Z.inj; exact Hcarry).
      subst q.
      change (Z.pos (digits2_pos 9007199254740992)) with 54.
      rewrite fexp_eq.
      replace (Z.max (54 + E - 53) (-1074) - E) with 1 by lia.
      cbn [shr SpecFloat.iter_pos shr_1 shr_m].
      assert (HE' : E <= 970).
      { destruct (Z.eq_dec E 971) as [E971|]; [|lia]. exfalso.
        assert (Hr1 : r1 = true) by (destruct r1; auto; specialize (Hdown eq_refl); lia).
        assert (Hm1' : m1 = 2 ^ 53 - 1) by lia.
        rewrite Hr1 in Hr. symmetry in Hr.
        set (t := Zpos M / 2 ^ (Zpos p - 1)) in *.
        assert (P1 : 0 < 2 ^ (Zpos p - 1)) by (apply Z.pow_pos_nonneg; lia).
        assert (Ht : t / 2 = m1).
        { unfold t. rewrite Z.div_div by lia.
          replace (2 ^ (Zpos p - 1) * 2) with (2 ^ Zpos p); [now symmetry|].
          replace (Zpos p) with (Z.succ (Zpos p - 1)) at 1 by lia.
          rewrite Z.pow_succ_r by lia. ring. }
        assert (Hodd : t mod 2 = 1) by (rewrite Zmod_odd, Hr; reflexivity).
        assert (Ht' : t = 2 ^ 54 - 1).
        { rewrite (Z.div_mod t 2) by lia. rewrite Ht, Hodd, Hm1'. reflexivity. }
        assert (HM : (2 ^ 54 - 1) * 2 ^ (Zpos p - 1) <= Zpos M).
        { rewrite <- Ht'. unfold t. rewrite Z.mul_comm. apply Z.mul_div_le. lia. }
        assert (Hexp : ez + 1074 = 2045 - Zpos p) by lia.
        rewrite Hexp in Hbound.
        assert (P3 : 0 < 2 ^ (2045 - Zpos p)) by (apply Z.pow_pos_nonneg; lia).
        assert ((2 ^ 54 - 1) * 2 ^ 2044
                = (2 ^ 54 - 1) * 2 ^ (Zpos p - 1) * 2 ^ (2045 - Zpos p)).
        { rewrite <- Z.mul_assoc, <- Z.pow_add_r by lia. do 2 f_equal. lia. }
        nia. }
      replace (E + 1 <=? emax - prec) with true
        by (symmetry; apply Z.leb_le; unfold emax, prec; lia).
      eauto.
    + assert (Hdq : Zpos (digits2_pos q) = 53) by (apply digits_unique; lia).
      rewrite Hdq, fexp_eq.
      replace (Z.max (53 + E - 53) (-1074) - E) with 0 by lia.
      cbn [shr shr_m].
      replace (E <=? emax - prec) with true
        by (symmetry; apply Z.leb_le; unfold emax, prec; lia).
      eauto.
  - (* shifted left *)
    assert (Hq : Zpos (Pos.iter xO M p) = Zpos M * 2 ^ Zpos p) by apply iter_xO.
    pose proof (digits_shift M (Zpos p) ltac:(lia) _ Hq) as Hdq. fold d in Hdq.
    set (mz := Pos.iter xO M p) in *.
    unfold binary_round_aux, shr_fexp. cbn [Zdigits2 shr_record_of_loc].
    rewrite Hdq, fexp_eq.
    replace (d + Z.pos p + E - 53) with (d + ez - 53) by lia. fold E.
    rewrite Z.sub_diag. cbn [shr shr_m loc_of_shr_record round_nearest_even].
    cbn [Zdigits2 shr_record_of_loc].
    rewrite Hdq, fexp_eq.
    replace (d + Z.pos p + E - 53) with (d + ez - 53) by lia. fold E.
    rewrite Z.sub_diag. cbn [shr shr_m].
    replace (E <=? emax - prec) with true by (symmetry; apply Z.leb_le; unfold emax, prec; lia).
    eauto.
Qed.

(** *** One plus a double above minus one *)

Lemma aligned mx ex ez :
  ez <= ex -> Zpos (fst (shl_align mx ex ez)) = Zpos mx * 2 ^ (ex - ez).
Proof.
  intros H. unfold shl_align.
  destruct (ez - ex) as [|p|p] eqn:Hs; cbn [fst]; try lia.
  - replace (ex - ez) with 0 by lia. simpl. lia.
  - rewrite iter_xO. do 2 f_equal. lia.
Qed.

Lemma bounded_inv m e :
  SpecFloat.bounded prec emax m e = true -> Zpos m < 2 ^ 53 /\ -1074 <= e <= 971.
Proof.
  unfold SpecFloat.bounded, canonical_mantissa. rewrite fexp_eq.
  intros H. apply andb_prop in H. destruct H as [Hc He].
  apply Z.eqb_eq in Hc. apply Z.leb_le in He. unfold emax, prec in He.
  pose proof (digits_bounds m) as [_ Hi].
  assert (Zpos (digits2_pos m) <= 53) by lia.
  assert (2 ^ Zpos (digits2_pos m) <= 2 ^ 53) by (apply Z.pow_le_mono_r; lia).
  lia.
Qed.

(** [-1 < r] for a negative [r = - m * 2^e]: aligned to the common exponent,
    the mantissa of [r] is below that of one. *)
Lemma above_minus_one (m : positive) (e : Z) :
  Zpos m < 2 ^ 53 ->
  SFltb (S754_finite true 4503599627370496 (-52)) (S754_finite true m e) = true ->
  Zpos m * 2 ^ (e - Z.min (-52) e) < 2 ^ (- Z.min (-52) e).
Proof.
  intros Hm. unfold SFltb, SFcompare.
  destruct (Z.compare_spec (-52) e) as [E|E|E]; try discriminate.
  - subst e. rewrite Pos.compare_cont_spec. cbn [Pos.switch_Eq].
    destruct (Pos.compare_spec 4503599627370496 m) as [C|C|C];
      try discriminate. intros _.
    rewrite Z.min_id. change (-52 - -52) with 0. change (- -52) with 52.
    rewrite Z.pow_0_r, Z.mul_1_r. change (2 ^ 52) with (Zpos 4503599627370496).
    apply Pos2Z.pos_lt_pos in C. exact C.
  - intros _. rewrite Z.min_r by lia.
    rewrite Z.sub_diag, Z.pow_0_r, Z.mul_1_r.
    assert (2 ^ 53 <= 2 ^ (- e)) by (apply Z.pow_le_mono_r; lia).
    clear - H Hm. lia.
Qed.

(** The sum of one and a positive double, scaled to an integer, stays below
    the point from which rounding overflows. *)
Lemma one_plus_bound (m : positive) (e ez : Z) :
  Zpos m < 2 ^ 53 -> -1074 <= e <= 971 -> ez = Z.min (-52) e ->
  (2 ^ (- ez) + Zpos m * 2 ^ (e - ez)) * 2 ^ (ez + 1074) < (2 ^ 54 - 1) * 2 ^ 2044.
Proof.
  intros Hm He Hez.
  assert (EA : 2 ^ (- ez) * 2 ^ (ez + 1074) = 2 ^ 1074).
  { rewrite <- Z.pow_add_r by lia. f_equal. lia. }
  assert (EB : 2 ^ (e - ez) * 2 ^ (ez + 1074) = 2 ^ (e + 1074)).
  { rewrite <- Z.pow_add_r by lia. f_equal. lia. }
  rewrite Z.mul_add_distr_r, <- Z.mul_assoc, EA, EB.
  assert (H1 : 2 ^ (e + 1074) <= 2 ^ 2045) by (apply Z.pow_le_mono_r; lia).
  assert (H2 : 0 < 2 ^ (e + 1074)) by (apply Z.pow_pos_nonneg; lia).
  assert (H3 : 2 ^ 1074 < 2 ^ 2044) by (apply Z.pow_lt_mono_r; lia).
  assert (H4 : 2 ^ 2045 = 2 * 2 ^ 2044) by (apply (Z.pow_succ_r 2 2044); lia).
  change (2 ^ 53) with 9007199254740992 in Hm.
  change (2 ^ 54) with 18014398509481984.
  rewrite H4 in H1. clear - Hm H1 H2 H3.
  generalize dependent (2 ^ 2044). generalize dependent (2 ^ 1074).
  generalize dependent (2 ^ (e + 1074)). intros. nia.
Qed.

Lemma one_plus_decoded (s : bool) (m : positive) (e : Z) :
  SpecFloat.bounded prec emax m e = true ->
  SFltb (S754_finite true 4503599627370496 (-52)) (S754_finite s m e) = true ->
  exists m' e',
    SF64add (S754_finite false 4503599627370496 (-52)) (S754_finite s m e)
    = S754_finite false m' e'.
Proof.
  intros Hb Hlt. destruct (bounded_inv m e Hb) as [Hm He].
  unfold SF64add, SFadd.
  set (ez := Z.min (-52) e).
  assert (Hez : -1074 <= ez <= -52) by (unfold ez; lia).
  rewrite !aligned by (unfold ez; lia).
  change (Z.pos 4503599627370496) with (2 ^ 52).
  rewrite <- Z.pow_add_r by lia.
  replace (52 + (-52 - ez)) with (- ez) by lia.
  assert (PB : 0 < Zpos m * 2 ^ (e - ez)).
  { assert (0 < 2 ^ (e - ez)) by (apply Z.pow_pos_nonneg; unfold ez; lia). lia. }
  assert (PA : 0 < 2 ^ (- ez)) by (apply Z.pow_pos_nonneg; lia).
  assert (PS : 0 < 2 ^ (ez + 1074)) by (apply Z.pow_pos_nonneg; lia).
  pose proof (one_plus_bound m e ez Hm He eq_refl) as Hbound.
  destruct s; cbn [cond_Zopp].
  - pose proof (above_minus_one m e Hm Hlt) as Hpos. fold ez in Hpos.
    destruct (2 ^ (- ez) + - (Zpos m * 2 ^ (e - ez))) as [|q|q] eqn:Hq; try lia.
    cbn [binary_normalize].
    apply binary_round_finite; [lia|].
    rewrite <- Hq.
    eapply Z.le_lt_trans; [|exact Hbound].
    apply Z.mul_le_mono_nonneg_r; lia.
  - destruct (2 ^ (- ez) + Zpos m * 2 ^ (e - ez)) as [|q|q] eqn:Hq; try lia.
    cbn [binary_normalize].
    apply binary_round_finite; [lia|exact Hbound].
Qed.

End Binary64Integers.

Section Binary64Facts.

Local Open Scope float_scope.

(** Two doubles are different when their decoded forms are. *)
Lemma float_neq (x y : float) : Prim2SF x <> Prim2SF y -> x <> y.
Proof. intros H E. apply H. now rewrite E. Qed.

(** A finite double is a zero or has a sign, a mantissa and an exponent. *)
Lemma finite_decoded (x : float) :
  is_finite x = true ->
  (exists s, Prim2SF x = S754_zero s) \/ (exists s m e, Prim2SF x = S754_finite s m e).
Proof.
  unfold is_finite, PrimFloat.is_nan, is_infinity.
  rewrite !FloatAxioms.eqb_spec, abs_spec.
  change (Prim2SF infinity) with (S754_infinity false).
  destruct (Prim2SF x) as [s|s| |s m e]; intros Hf; eauto.
  - destruct s; discriminate Hf.
  - discriminate Hf.
Qed.

Lemma one_plus_finite (r : float) :
  is_finite r = true -> (-1 <? r) = true ->
  exists s m e, Prim2SF (1 + r) = S754_finite s m e.
Proof.
  intros Hf Hlt. rewrite ltb_spec in Hlt.
  change (Prim2SF (-1)) with (S754_finite true 4503599627370496 (-52)) in Hlt.
  rewrite add_spec.
  change (Prim2SF 1) with (S754_finite false 4503599627370496 (-52)).
  pose proof (Prim2SF_valid r) as Hv.
  destruct (finite_decoded r Hf) as [[s E]|(s & m & e & E)]; rewrite E in *.
  - simpl. eauto.
  - destruct (one_plus_decoded s m e Hv Hlt) as (m' & e' & H). eauto.
Qed.

(** The quotient of a finite nonzero double by itself is exactly one. *)
Lemma float_div_self (x : float) (s : bool) (m : positive) (e : Z) :
  Prim2SF x = S754_finite s m e -> x / x = 1.
Proof.
  intros Hx.
  apply Prim2SF_inj. rewrite div_spec, Hx.
  unfold SF64div, SFdiv, SFdiv_core_binary.
  rewrite xorb_nilpotent.
  replace (Zdigits2 (Z.pos m) + e - (Zdigits2 (Z.pos m) + e))%Z with 0%Z by lia.
  replace (e - e)%Z with 0%Z by lia.
  change (IntDef.Z.min (fexp prec emax 0) 0) with (-53)%Z.
  change (IntDef.Z.sub 0 (-53)) with 53%Z. cbv iota beta.
  change IntDef.Z.shiftl with Z.shiftl. change IntDef.Z.div_eucl with Z.div_eucl.
  rewrite Z.shiftl_mul_pow2 by lia.
  assert (Hq : (Z.pos m * 2 ^ 53 / Z.pos m = 2 ^ 53)%Z).
  { rewrite Z.mul_comm. apply Z.div_mul. lia. }
  assert (Hr : ((Z.pos m * 2 ^ 53) mod Z.pos m = 0)%Z).
  { rewrite Z.mul_comm. apply Z.mod_mul. lia. }
  unfold Z.div in Hq. unfold Z.modulo in Hr.
  destruct (Z.div_eucl (Z.pos m * 2 ^ 53) (Z.pos m)) as [q r].
  subst q r.
  replace (new_location (Z.pos m) 0) with loc_Exact
    by (unfold new_location, new_location_even, new_location_odd;
        now destruct (Z.even (Z.pos m))).
  reflexivity.
Qed.

End Binary64Facts.

Set Implicit Arguments.

Lemma last_cons_default {A : Type} (x d : A) (l : list A) :
  last (x :: l) d = last l x.
Proof.
  revert x d. induction l as [|y l IH]; intros x d; [reflexivity|].
  change (last (x :: y :: l) d) with (last (y :: l) d).
  now rewrite (IH y d), (IH y x).
Qed.

(** C1, the claim as stated fails on the doubles the script computes with:
    for the closing prices 3 and 1 the evaluator returns the total return
    [(1 - 3) / 3], which is not the double [1 / 3 - 1]. *)
Lemma total_return_rounds_binary64 :
  (forall libm_pow : float -> float -> float,
      exists real fv : float,
        fst (calculate_returns (A_num := binary64 libm_pow)
               (constant_world (Some [3; 1]%float) None)
               "XU100.IS" 1000%float 0%Z 365%Z 0%float 0%float [])
        = Returned (Some ((1 - 3) / 3)%float, Some real, Some fv))
  /\ ((1 - 3) / 3)%float <> (1 / 3 - 1)%float.
Proof.
  split.
  - intros libm_pow. rewrite calculate_returns_cases.
    unfold classify. simpl yf_download.
    replace (is_zero (years_of (A_num := binary64 libm_pow) 0%Z 365%Z)) with false
      by (vm_compute; reflexivity).
    unfold computed. do 2 eexists. reflexivity.
  - apply float_neq. vm_compute. discriminate.
Qed.

(** C1 (as amended).  On a frame of two or more rows (and a range that is
    not zero years long) the total return is the quotient
    [(final - initial) / initial] of the first and the last closing price, in
    the arithmetic the script runs on.  In exact arithmetic, and for a
    nonzero first price, that quotient is [last / first - 1]. *)
Theorem calculate_returns_total_return :
  (forall (num : Type) (A_num : Arith num) (w : world num)
          (ticker : string) (initial_investment : num) (start_date end_date : date)
          (inflation_rate interest_rate : num) (log : list (event num))
          (prices : list num) (d : num),
      yf_download w ticker start_date end_date = Some prices ->
      (2 <= List.length prices)%nat ->
      is_zero (years_of start_date end_date) = false ->
      let initial_price := hd d prices in
      let final_price := last prices d in
      exists real fv : num,
        fst (calculate_returns w ticker initial_investment start_date end_date
               inflation_rate interest_rate log)
        = Returned (Some ((final_price - initial_price) / initial_price)%num,
                    Some real, Some fv))
  /\ (forall (w : world R) (ticker : string) (initial_investment : R)
             (start_date end_date : date) (inflation_rate interest_rate : R)
             (log : list (event R)) (prices : list R) (d : R),
         yf_download w ticker start_date end_date = Some prices ->
         (2 <= List.length prices)%nat ->
         start_date <> end_date ->
         Forall (fun p => 0 < p)%R prices ->
         exists real fv : R,
           fst (calculate_returns (A_num := exact) w ticker initial_investment
                  start_date end_date inflation_rate interest_rate log)
           = Returned (Some (last prices d / hd d prices - 1)%R, Some real, Some fv)).
Proof.
  assert (generic :
    forall (num : Type) (A_num : Arith num) (w : world num) ticker inv s e infl ir log
           (prices : list num) (d : num),
      yf_download w ticker s e = Some prices ->
      (2 <= List.length prices)%nat ->
      is_zero (years_of s e) = false ->
      exists real fv : num,
        fst (calculate_returns w ticker inv s e infl ir log)
        = Returned (Some ((last prices d - hd d prices) / hd d prices)%num,
                    Some real, Some fv)).
  { intros num A_num w ticker inv s e infl ir log prices d H Hlen Hz.
    destruct prices as [|x [|y rest]]; simpl in Hlen; try lia.
    rewrite calculate_returns_cases. unfold classify. rewrite H, Hz.
    unfold computed, total_return_of. simpl hd.
    rewrite (last_cons_default x d (y :: rest)). do 2 eexists. reflexivity. }
  split.
  - intros. now apply generic.
  - intros w ticker inv s e infl ir log prices d H Hlen Hse Hpos.
    destruct (generic R exact w ticker inv s e infl ir log prices d H Hlen
                (exact_years_nonzero Hse)) as (real & fv & E).
    exists real, fv. rewrite E. do 4 f_equal.
    destruct prices as [|x rest]; simpl in Hlen; try lia.
    inversion Hpos; subst. simpl hd. simpl. field. lra.
Qed.

Lemma calculate_returns_total_return_witness :
  (exists real fv : R,
      fst (calculate_returns (A_num := exact) (constant_world (Some [100; 150]%R) None)
             "XU100.IS" 1000%R 0%Z 365%Z 0%R 0%R [])
      = Returned (Some ((150 - 100) / 100)%R, Some real, Some fv))
  /\ (exists real fv : R,
      fst (calculate_returns (A_num := exact) (constant_world (Some [100; 150]%R) None)
             "XU100.IS" 1000%R 0%Z 365%Z 0%R 0%R [])
      = Returned (Some (150 / 100 - 1)%R, Some real, Some fv)).
Proof.
  destruct calculate_returns_total_return as [generic in_exact]. split.
  - apply (generic R exact (constant_world (Some [100; 150]%R) None)
             "XU100.IS"%string 1000%R 0%Z 365%Z 0%R 0%R [] [100; 150]%R 0%R).
    + reflexivity.
    + simpl. lia.
    + apply exact_years_nonzero. lia.
  - apply (in_exact (constant_world (Some [100; 150]%R) None)
             "XU100.IS"%string 1000%R 0%Z 365%Z 0%R 0%R [] [100; 150]%R 0%R).
    + reflexivity.
    + simpl. lia.
    + lia.
    + repeat constructor; lra.
Defined.

(* ===================================================================== *)
(** * The real return (lines 17-19) *)
(* ===================================================================== *)

(** On doubles a return that equals the inflation rate cancels exactly, for
    every finite rate above minus one. *)
Lemma calculate_real_return_offsets_binary64 (libm_pow : float -> float -> float)
    (r : float) :
  is_finite r = true ->
  (-1 <? r)%float = true ->
  calculate_real_return (A_num := binary64 libm_pow) r r = 0%float.
Proof.
  intros Hf Hlt. unfold calculate_real_return. simpl.
  change (float_of_Z 1) with 1%float.
  destruct (one_plus_finite r Hf Hlt) as (s & m & e & H).
  now rewrite (float_div_self (1 + r) s m e H).
Qed.

(** C3.  The real return is [(1 + nominal) / (1 + inflation) - 1].  With no
    growth and no inflation it is zero, on doubles and in exact arithmetic.
    A return that equals the inflation rate [r > -1] gives real return zero:
    for every real [r] in exact arithmetic, and bit for bit for every finite
    double [r]. *)
Theorem calculate_real_return_offsets :
  (forall (num : Type) (A_num : Arith num) (nominal_return inflation_rate : num),
      calculate_real_return nominal_return inflation_rate
      = ((of_Z 1 + nominal_return) / (of_Z 1 + inflation_rate) - of_Z 1)%num)
  /\ (forall libm_pow : float -> float -> float,
         calculate_real_return (A_num := binary64 libm_pow) 0%float 0%float = 0%float)
  /\ calculate_real_return (A_num := exact) 0%R 0%R = 0%R
  /\ (forall r : R, (-1 < r)%R -> calculate_real_return (A_num := exact) r r = 0%R)
  /\ (forall (libm_pow : float -> float -> float) (r : float),
         is_finite r = true ->
         (-1 <? r)%float = true ->
         calculate_real_return (A_num := binary64 libm_pow) r r = 0%float).
Proof.
  split; [reflexivity|].
  split; [intros libm_pow; vm_compute; reflexivity|].
  split; [unfold calculate_real_return; simpl; field|].
  split.
  - intros r Hr. unfold calculate_real_return. simpl. field. lra.
  - intros libm_pow r. apply calculate_real_return_offsets_binary64.
Qed.

Lemma calculate_real_return_offsets_witness :
  calculate_real_return (A_num := exact) 0.25%R 0.25%R = 0%R
  /\ (forall libm_pow : float -> float -> float,
         calculate_real_return (A_num := binary64 libm_pow) 0.25%float 0.25%float
         = 0%float).
Proof.
  destruct calculate_real_return_offsets as (_ & _ & _ & in_exact & in_binary64).
  split.
  - apply (in_exact 0.25%R). lra.
  - intros libm_pow. apply (in_binary64 libm_pow 0.25%float); reflexivity.
Defined.

(** Finiteness cannot be dropped on doubles: infinity compares above [-1],
    and the real return of infinity against infinity is NaN. *)
Lemma calculate_real_return_infinity (libm_pow : float -> float -> float) :
  (-1 <? infinity)%float = true
  /\ PrimFloat.is_nan
       (calculate_real_return (A_num := binary64 libm_pow) infinity infinity) = true.
Proof. split; vm_compute; reflexivity. Qed.

(* ===================================================================== *)
(** * Annualisation and the final value (lines 39-51) *)
(* ===================================================================== *)

Section ExactPowers.

Local Open Scope R_scope.
Local Existing Instance exact.

(** A power of a base above one equals the base only for the exponent one. *)
Lemma Rpower_base_fixed (b y : R) : 1 < b -> Rpower b y = b -> y = 1.
Proof.
  intros Hb H. unfold Rpower in H.
  assert (Hln : 0 < ln b) by (rewrite <- ln_1; apply ln_increasing; lra).
  rewrite <- (exp_ln b) in H at 2 by lra.
  apply exp_inv in H.
  apply (Rmult_eq_reg_r (ln b)); lra.
Qed.

(** No whole number of days is 365.25 days. *)
Lemma no_whole_year (days : Z) : IZR days <> 365.25.
Proof.
  intros H.
  assert (E : IZR (4 * days) = IZR 1461) by (rewrite mult_IZR, H; lra).
  apply eq_IZR in E. lia.
Qed.

(** The scenario of the specification, for any range of [days] days: in
    exact arithmetic the prices 100 and 150, no inflation and 1000 invested
    give total return 0.5 and final value 1500, and the annual real return
    [1.5 ^ (365.25 / days) - 1]. *)
Lemma scenario_100_150 ticker (s e : date) (ir : R) log :
  s <> e ->
  fst (calculate_returns (constant_world (Some [100; 150]) None)
         ticker 1000 s e 0 ir log)
  = Returned (Some 0.5, Some (Rpower 1.5 (365.25 / IZR (e - s)) - 1), Some 1500).
Proof.
  intros Hse.
  rewrite calculate_returns_cases. unfold classify. simpl yf_download.
  rewrite (exact_years_nonzero Hse).
  assert (Hd : IZR (e - s) <> 0) by (apply not_0_IZR; lia).
  unfold computed, calculate_real_return, total_return_of. rewrite exact_years_of.
  cbn [fst last of_Z add sub mul div pow exact].
  replace (1 + (150 - 100) / 100) with 1.5 by lra.
  replace (1 / (IZR (e - s) / 365.25)) with (365.25 / IZR (e - s)) by (field; lra).
  replace (1 + ((1 + (Rpower 1.5 (365.25 / IZR (e - s)) - 1)) / (1 + 0) - 1))
    with (Rpower 1.5 (365.25 / IZR (e - s))) by (field; lra).
  rewrite Rpower_mult.
  replace (365.25 / IZR (e - s) * (IZR (e - s) / 365.25)) with 1 by (field; lra).
  rewrite Rpower_1 by lra.
  do 2 f_equal; [f_equal|]; f_equal; lra.
Qed.

End ExactPowers.

(** C2, the claim as stated fails: for the prices 100 and 150, no inflation
    and 1000 invested, there is no date range at all for which the annual
    real return comes out as 0.5, because [years] is a whole number of days
    over 365.25 and so never 1. *)
Lemma scenario_annual_return_is_never_half :
  ~ exists (start_date end_date : date) (total final : option R),
      fst (calculate_returns (A_num := exact) (constant_world (Some [100; 150]%R) None)
             "XU100.IS" 1000%R start_date end_date 0%R 0%R [])
      = Returned (total, Some 0.5%R, final).
Proof.
  intros (s & e & total & final & H).
  destruct (Z.eq_dec s e) as [->|Hse].
  - rewrite calculate_returns_cases in H. unfold classify in H. simpl yf_download in H.
    rewrite exact_is_zero_true in H; [discriminate H|].
    rewrite exact_years_of, Z.sub_diag. unfold Rdiv. apply Rmult_0_l.
  - rewrite (scenario_100_150 _ _ _ Hse) in H. inversion H as [[Ht Hr Hf]].
    assert (Hp : Rpower 1.5 (365.25 / IZR (e - s)) = 1.5%R) by lra.
    apply Rpower_base_fixed in Hp; [|lra].
    assert (Hd : IZR (e - s) <> 0%R) by (apply not_0_IZR; lia).
    apply (@no_whole_year (e - s)%Z).
    apply (Rmult_eq_compat_r (IZR (e - s))) in Hp.
    unfold Rdiv in Hp. rewrite Rmult_assoc, Rinv_l, Rmult_1_r, Rmult_1_l in Hp by exact Hd.
    now symmetry.
Qed.

(** C2 (as amended).  On a frame of two or more rows and a range that is not
    zero years long, the evaluator computes [years] as the number of days
    over 365.25, the annual return as [(1 + total) ** (1 / years) - 1], the
    real annual return from it, and the final value as
    [investment * (1 + real) ** years].  For the prices 100 and 150, no
    inflation and 1000 invested, over any range with the end after the
    start, exact arithmetic gives total return 0.5 and final value 1500; the
    annual and the real annual return are [1.5 ^ (365.25 / days) - 1], which
    is not 0.5. *)
Theorem calculate_returns_annualises :
  (forall (num : Type) (A_num : Arith num) (w : world num)
          (ticker : string) (initial_investment : num) (start_date end_date : date)
          (inflation_rate interest_rate : num) (log : list (event num))
          (prices : list num) (d : num),
      yf_download w ticker start_date end_date = Some prices ->
      (2 <= List.length prices)%nat ->
      is_zero (years_of start_date end_date) = false ->
      let total_return := ((last prices d - hd d prices) / hd d prices)%num in
      let years := (of_Z (end_date - start_date) / days_per_year)%num in
      let annual_return := ((of_Z 1 + total_return) ** (of_Z 1 / years) - of_Z 1)%num in
      let real_annual_return := calculate_real_return annual_return inflation_rate in
      let final_value := (initial_investment * (of_Z 1 + real_annual_return) ** years)%num in
      fst (calculate_returns w ticker initial_investment start_date end_date
             inflation_rate interest_rate log)
      = Returned (Some total_return, Some real_annual_return, Some final_value))
  /\ (forall libm_pow, days_per_year (Arith := binary64 libm_pow) = 365.25%float)
  /\ days_per_year (Arith := exact) = 365.25%R
  /\ (forall (ticker : string) (start_date end_date : date) (interest_rate : R)
             (log : list (event R)),
         (start_date < end_date)%Z ->
         let annual := (Rpower 1.5 (365.25 / IZR (end_date - start_date)) - 1)%R in
         fst (calculate_returns (A_num := exact) (constant_world (Some [100; 150]%R) None)
                ticker 1000%R start_date end_date 0%R interest_rate log)
         = Returned (Some 0.5%R, Some annual, Some 1500%R)
         /\ annual <> 0.5%R).
Proof.
  split; [|split; [reflexivity|split; [reflexivity|]]].
  - intros num A_num w ticker inv s e infl ir log prices d H Hlen Hz.
    destruct prices as [|x [|y rest]]; simpl in Hlen; try lia.
    rewrite calculate_returns_cases. unfold classify. rewrite H, Hz.
    unfold computed, total_return_of, years_of. simpl hd.
    now rewrite (last_cons_default x d (y :: rest)).
  - intros ticker s e ir log Hse annual. split.
    + apply scenario_100_150. lia.
    + subst annual. intros E.
      assert (Hp : Rpower 1.5 (365.25 / IZR (e - s)) = 1.5%R) by lra.
      apply Rpower_base_fixed in Hp; [|lra].
      assert (Hd : IZR (e - s) <> 0%R) by (apply not_0_IZR; lia).
      apply (@no_whole_year (e - s)%Z).
      apply (Rmult_eq_compat_r (IZR (e - s))) in Hp.
      unfold Rdiv in Hp.
      rewrite Rmult_assoc, Rinv_l, Rmult_1_r, Rmult_1_l in Hp by exact Hd.
      now symmetry.
Qed.

Lemma calculate_returns_annualises_witness :
  (fst (calculate_returns (A_num := exact) (constant_world (Some [100; 150]%R) None)
          "XU100.IS" 1000%R 0%Z 365%Z 0%R 0%R [])
   = Returned
       (Some ((150 - 100) / 100)%R,
        Some (calculate_real_return (A_num := exact)
                (Rpower (1 + (150 - 100) / 100) (1 / (IZR (365 - 0) / 365.25)) - 1)
                0)%R,
        Some (1000 * Rpower
                       (1 + calculate_real_return (A_num := exact)
                              (Rpower (1 + (150 - 100) / 100)
                                 (1 / (IZR (365 - 0) / 365.25)) - 1) 0)
                       (IZR (365 - 0) / 365.25))%R))
  /\ fst (calculate_returns (A_num := exact) (constant_world (Some [100; 150]%R) None)
            "XU100.IS" 1000%R 0%Z 365%Z 0%R 0%R [])
     = Returned (Some 0.5%R, Some (Rpower 1.5 (365.25 / IZR (365 - 0)) - 1)%R,
                 Some 1500%R)
  /\ (Rpower 1.5 (365.25 / IZR (365 - 0)) - 1 <> 0.5)%R.
Proof.
  destruct calculate_returns_annualises as (formulas & _ & _ & scenario).
  split.
  - apply (formulas R exact (constant_world (Some [100; 150]%R) None)
             "XU100.IS"%string 1000%R 0%Z 365%Z 0%R 0%R [] [100; 150]%R 0%R).
    + reflexivity.
    + simpl. lia.
    + apply exact_years_nonzero. lia.
  - apply (scenario "XU100.IS"%string 0%Z 365%Z 0%R []). lia.
Defined.

(* ===================================================================== *)
(** * The arithmetic of the rate aggregation (lines 92-95) *)
(* ===================================================================== *)

Section Aggregation.

Context {num : Type} {A_num : Arith num}.
Local Open Scope num_scope.

(** The specification's description of the growth-rate mode: every
    consecutive pair of readings, the relative change across it, and the
    mean as the sum over the number of values. *)
Definition consecutive_pairs (series : list num) : list (num * num) :=
  combine series (tl series).

Definition relative_change (pair : num * num) : num :=
  let (previous, current) := pair in current / previous - of_Z 1.

Definition arithmetic_mean (rows : list num) : num :=
  fold_left add rows (of_Z 0) / of_Z (Z.of_nat (List.length rows)).

(** A column without missing readings. *)
Definition no_nan (rows : list num) : bool :=
  forallb (fun x => negb (is_nan x)) rows.

Lemma observed_present (x : num) : is_nan x = false -> observed x = Some x.
Proof. intros H. unfold observed. now rewrite H. Qed.

Lemma observed_all_present (rows : list num) :
  no_nan rows = true -> map observed rows = map Some rows.
Proof.
  induction rows as [|x rows IH]; [reflexivity|]. simpl. intros H.
  apply andb_prop in H. destruct H as [Hx Hrows].
  rewrite observed_present by now destruct (is_nan x).
  f_equal. now apply IH.
Qed.

(** There is nothing to fill in a column without missing readings. *)
Lemma ffill_present (previous : cell) (rows : list num) :
  ffill previous (map Some rows) = map Some rows.
Proof.
  revert previous. induction rows as [|x rows IH]; intros previous; [reflexivity|].
  simpl. f_equal. apply IH.
Qed.


Lemma pct_change_from_present (previous : num) (rows : list num) :
  no_nan (map relative_change (consecutive_pairs (previous :: rows))) = true ->
  pct_change_from (Some previous) (map Some rows)
  = map Some (map relative_change (consecutive_pairs (previous :: rows))).
Proof.
  revert previous. induction rows as [|x rows IH]; intros previous; [reflexivity|].
  intros H. simpl in H. apply andb_prop in H. destruct H as [Hx Hrows].
  simpl. f_equal.
  - apply observed_present. now destruct (is_nan (x / previous - of_Z 1)).
  - apply IH. exact Hrows.
Qed.

Lemma count_present (rows : list num) : count (map Some rows) = List.length rows.
Proof. unfold count. induction rows as [|x rows IH]; simpl; auto. Qed.

Lemma fill_zero_present (rows : list num) : map fill_zero (map Some rows) = rows.
Proof. induction rows as [|x rows IH]; simpl; [reflexivity|now f_equal]. Qed.

(** The rate of a column without missing readings whose changes are all
    numbers: the changes of the consecutive pairs, behind the missing change
    of the first row, which counts as zero in the sum and is not counted. *)
Lemma inflation_rate_of_complete (x : num) (rest : list num) :
  no_nan (x :: rest) = true ->
  no_nan (map relative_change (consecutive_pairs (x :: rest))) = true ->
  inflation_rate_of (x :: rest)
  = sum (of_Z 0 :: map relative_change (consecutive_pairs (x :: rest)))
    / of_Z (Z.of_nat (List.length (consecutive_pairs (x :: rest))))
    * of_Z 12.
Proof.
  intros Hrows Hchanges. unfold inflation_rate_of, mean, pct_change.
  rewrite (observed_all_present _ Hrows), ffill_present.
  cbn [map pct_change_from change_since].
  rewrite (pct_change_from_present _ _ Hchanges).
  unfold count. cbn [filter].
  fold (count (map Some (map relative_change (consecutive_pairs (x :: rest))))).
  rewrite count_present, length_map.
  cbn [map fill_zero]. now rewrite fill_zero_present.
Qed.



(** The depth given to [pairwise_sum] is enough: a cut leaves two parts of
    at most half the length plus 8, so any two depths that are at least the
    length less 128 give the same sum. *)
Lemma pairwise_sum_depth (d1 d2 : nat) (rows : list num) :
  (List.length rows <= 128 + d1)%nat ->
  (List.length rows <= 128 + d2)%nat ->
  pairwise_sum d1 rows = pairwise_sum d2 rows.
Proof.
  revert d2 rows. induction d1 as [|d1 IH]; intros d2 rows H1 H2.
  - destruct d2 as [|d2]; [reflexivity|]. simpl.
    destruct (Nat.leb_spec (List.length rows) 128); [reflexivity|lia].
  - destruct d2 as [|d2].
    + simpl. destruct (Nat.leb_spec (List.length rows) 128); [reflexivity|lia].
    + cbn [pairwise_sum].
      destruct (Nat.leb_spec (List.length rows) 128) as [Hle|Hgt]; [reflexivity|].
      set (n := List.length rows) in *.
      assert (Hhalf : (n / 2 <= n)%nat) by (apply Nat.Div0.div_le_upper_bound; lia).
      assert (Hmod : ((n / 2) mod 8 < 8)%nat) by (apply Nat.mod_upper_bound; lia).
      assert (Hdiv : (n = 2 * (n / 2) + n mod 2)%nat) by (apply Nat.div_mod_eq).
      assert (Hmod2 : (n mod 2 < 2)%nat) by (apply Nat.mod_upper_bound; lia).
      f_equal; apply IH; rewrite ?length_firstn, ?length_skipn; fold n; lia.
Qed.

End Aggregation.

Section ExactAggregation.

Local Open Scope R_scope.
Local Existing Instance exact.

Lemma fold_left_Rplus (rows : list R) (a : R) :
  fold_left Rplus rows a = a + fold_left Rplus rows 0.
Proof.
  revert a. induction rows as [|x rows IH]; intros a; simpl; [lra|].
  rewrite (IH (a + x)), (IH (0 + x)). lra.
Qed.

Lemma unrolled_exact (n : nat) :
  forall (rows : list R) (r0 r1 r2 r3 r4 r5 r6 r7 : R),
    (List.length rows <= n)%nat ->
    unrolled r0 r1 r2 r3 r4 r5 r6 r7 rows
    = r0 + r1 + r2 + r3 + r4 + r5 + r6 + r7 + fold_left Rplus rows 0.
Proof.
  induction n as [|n IH]; intros rows r0 r1 r2 r3 r4 r5 r6 r7 Hlen.
  - destruct rows; simpl in *; [lra|lia].
  - destruct rows as [|a0 [|a1 [|a2 [|a3 [|a4 [|a5 [|a6 [|a7 rest]]]]]]]];
      cbn [unrolled add exact];
      try (rewrite fold_left_Rplus; simpl; lra).
    rewrite IH by (simpl in Hlen; lia).
    cbn [fold_left]. rewrite (fold_left_Rplus rest (_ + a7)). lra.
Qed.

Lemma block_sum_exact (rows : list R) : block_sum rows = fold_left Rplus rows 0.
Proof.
  destruct rows as [|a0 [|a1 [|a2 [|a3 [|a4 [|a5 [|a6 [|a7 rest]]]]]]]];
    try reflexivity.
  cbn [block_sum]. rewrite (@unrolled_exact (List.length rest)) by lia.
  cbn [fold_left]. rewrite (fold_left_Rplus rest (_ + a7)). lra.
Qed.

Lemma fold_left_Rplus_app (l1 l2 : list R) :
  fold_left Rplus (l1 ++ l2) 0 = fold_left Rplus l1 0 + fold_left Rplus l2 0.
Proof. rewrite fold_left_app. apply fold_left_Rplus. Qed.

Lemma pairwise_sum_exact (depth : nat) (rows : list R) :
  pairwise_sum depth rows = fold_left Rplus rows 0.
Proof.
  revert rows. induction depth as [|depth IH]; intros rows; [apply block_sum_exact|].
  cbn [pairwise_sum].
  destruct (List.length rows <=? 128)%nat; [apply block_sum_exact|].
  rewrite !IH. cbn [add exact]. rewrite <- fold_left_Rplus_app.
  now rewrite firstn_skipn.
Qed.

(** In exact arithmetic the order of the additions plays no part. *)
Lemma exact_sum (rows : list R) : sum rows = fold_left Rplus rows 0.
Proof. unfold sum. rewrite pairwise_sum_exact. cbn [add of_Z exact]. lra. Qed.

Lemma exact_no_nan (rows : list R) : no_nan rows = true.
Proof. induction rows; simpl; auto. Qed.

Lemma exact_inflation_rate_of (series : list R) :
  inflation_rate_of series
  = arithmetic_mean (map relative_change (consecutive_pairs series)) * 12.
Proof.
  destruct series as [|x rest].
  - unfold inflation_rate_of, mean, arithmetic_mean.
    cbn [map pct_change ffill pct_change_from]. rewrite exact_sum. reflexivity.
  - rewrite inflation_rate_of_complete by apply exact_no_nan.
    unfold arithmetic_mean. rewrite exact_sum, length_map.
    cbn [fold_left of_Z add mul div exact].
    rewrite (fold_left_Rplus _ (0 + 0)). f_equal. f_equal. lra.
Qed.



End ExactAggregation.

(** ** Short columns on doubles

    Adding doubles never gives a negative zero unless it starts from one, so
    the zero from which NumPy's reduction starts leaves no trace, and up to
    seven values are added from left to right. *)

Unset Implicit Arguments.

Section Binary64Zero.

Local Open Scope Z_scope.






End Binary64Zero.

Section Binary64Sums.

Local Open Scope float_scope.





End Binary64Sums.

Set Implicit Arguments.




(** From eight values on the order of the additions shows.  Twelve monthly readings
    of an interest rate in percent (0.08, 0.09, 0.09, 0.08, 0.12, 0.20,
    0.33, 0.77, 1.21, 1.68, 2.33, 2.56, each the double nearest to it): the
    rate the script computes is not the rate of the sum taken from left to
    right. *)
Definition hundredths (readings : list Z) : list float :=
  map (fun n => float_of_Z n / 100)%float readings.

Lemma interest_rate_order_binary64 (libm_pow : float -> float -> float) :
  let series := hundredths [8; 9; 9; 8; 12; 20; 33; 77; 121; 168; 233; 256]%Z in
  sum (A_num := binary64 libm_pow) series = 0x1.3147ae147ae15p+3%float
  /\ fold_left PrimFloat.add series 0%float = 0x1.3147ae147ae14p+3%float
  /\ interest_rate_of (A_num := binary64 libm_pow) series
     <> (arithmetic_mean (A_num := binary64 libm_pow) series / 100)%float.
Proof.
  split; [|split].
  - vm_compute. reflexivity.
  - vm_compute. reflexivity.
  - apply float_neq. vm_compute. discriminate.
Qed.

(* ===================================================================== *)
(** * The orchestration ([main]) *)
(* ===================================================================== *)

Section Orchestration.

Context {num : Type} {A_num : Arith num}.

(** A request for one of the economic series. *)
Definition is_fred_request (ev : event num) : bool :=
  match ev with
  | Get_data_fred _ _ _ => true
  | _ => false
  end.

(** The lines of the report and the chart (lines 112-130). *)
Definition is_result (ev : event num) : bool :=
  match ev with
  | Print (Initial_investment _) | Print (Initial_usdtry_rate _)
  | Print (Final_usdtry_rate _) | Print (Results_header _)
  | Print (Total_nominal_return _) | Print (Annual_real_return _)
  | Print (Final_value _) | Bar_chart _ _ => true
  | _ => false
  end.

(** The messages that report a failure. *)
Definition is_error_message (m : message num) : bool :=
  match m with
  | Data_download_error | Insufficient_data_found _ | Usdtry_download_error
  | Insufficient_usdtry_data | Unable_to_fetch_rates | Calculation_error => true
  | _ => false
  end.

(** A market's evaluation fails when [calculate_returns] returns the failure
    triple for it, whatever the amounts and rates. *)
Definition evaluation_fails (w : world num) (ticker : string) (s e : date) : Prop :=
  forall inv infl ir log,
    fst (calculate_returns w ticker inv s e infl ir log) = Returned failure.

Lemma evaluation_fails_iff (w : world num) ticker s e :
  evaluation_fails w ticker s e <-> unavailable (yf_download w ticker s e) = true.
Proof.
  split.
  - intros H. apply (calculate_returns_fails_iff w ticker (of_Z 0) s e (of_Z 0) (of_Z 0) []).
    apply H.
  - intros H inv infl ir log. now apply calculate_returns_fails_iff.
Qed.

(** Anything the run prints. *)
Definition is_print (ev : event num) : bool :=
  match ev with
  | Print _ => true
  | _ => false
  end.

(** The printing of an error message. *)
Definition is_error (ev : event num) : bool :=
  match ev with
  | Print m => is_error_message m
  | _ => false
  end.

(** A market's evaluation succeeds when [calculate_returns] returns three
    numbers for it, whatever the amounts and rates. *)
Definition evaluation_succeeds (w : world num) (ticker : string) (s e : date) : Prop :=
  forall inv infl ir log,
    exists tr real fv,
      fst (calculate_returns w ticker inv s e infl ir log)
      = Returned (Some tr, Some real, Some fv).

Lemma evaluation_succeeds_iff (w : world num) ticker s e :
  evaluation_succeeds w ticker s e
  <-> unavailable (yf_download w ticker s e) = false
      /\ is_zero (years_of s e) = false.
Proof.
  unfold evaluation_succeeds. split.
  - intros H. destruct (H (of_Z 0) (of_Z 0) (of_Z 0) []) as (tr & real & fv & E).
    rewrite calculate_returns_cases in E. unfold classify in E.
    destruct (yf_download w ticker s e) as [[|x [|y rest]]|]; simpl in E;
      try discriminate E.
    destruct (is_zero (years_of s e)); [discriminate E|]. split; reflexivity.
  - intros [Hdata Hz] inv infl ir log.
    rewrite calculate_returns_cases. unfold classify. rewrite Hz.
    destruct (yf_download w ticker s e) as [[|x [|y rest]]|]; try discriminate Hdata.
    unfold computed. simpl. eauto.
Qed.

End Orchestration.

Ltac unfold_run :=
  unfold main, evaluate_and_report, report, get_fred_data, try_download, number,
    print, emit, bind, ret, raise.

Ltac case_oracle :=
  match goal with
  | |- context [yf_download ?w ?t ?s ?e] =>
      let H := fresh "Hyf" in
      destruct (yf_download w t s e) as [[|? [|? ?]]|] eqn:H
  | |- context [pdr_get_data_fred ?w ?t ?s ?e] =>
      let H := fresh "Hfred" in
      destruct (pdr_get_data_fred w t s e) as [?|] eqn:H
  end.

Ltac step_fred :=
  match goal with
  | |- context [pdr_get_data_fred ?w ?t ?s ?e] =>
      destruct (pdr_get_data_fred w t s e) as [?|]; simpl
  end.

(** A concrete log ends with the printing of an error message. *)
Ltac ends_with_message :=
  match goal with
  | |- exists before m, ?L = _ /\ _ =>
      exists (removelast L); eexists; split;
      [ etransitivity;
        [ apply (@app_removelast_last _ L (Print Calculation_error)); discriminate
        | simpl; reflexivity ]
      | reflexivity ]
  end.

(** A run that presents nothing ends in one of two ways. *)
Ltac ends_without_results :=
  match goal with
  | |- exists before m, ?L = _ /\ _ => ends_with_message
  | |- _ /\ _ /\ exists before ticker, ?L = _ =>
      split; [reflexivity|]; split; [reflexivity|];
      exists (removelast L); eexists;
      etransitivity;
      [ apply (@app_removelast_last _ L (Print Calculation_error)); discriminate
      | simpl; reflexivity ]
  end.

(** The five parts of the statement about a run that presents nothing. *)
Ltac presents_nothing :=
  split; [reflexivity|];
  split; [discriminate|];
  split; [intros _; ends_without_results|];
  split; [(reflexivity || discriminate)|];
  intros; repeat match goal with H : _ /\ _ |- _ => destruct H end;
  solve [discriminate | congruence].

Section OrchestrationFacts.

Context {num : Type} {A_num : Arith num}.
Variable w : world num.

Definition is_chart (ev : event num) : bool :=
  match ev with
  | Bar_chart _ _ => true
  | _ => false
  end.

(** The six requests of a complete run, in order. *)
Definition requests (s e : date) : list (event num) :=
  [Yf_download "USDTRY=X" s e;
   Get_data_fred "TURCPIALLMINMEI" s e; Get_data_fred "CPIAUCSL" s e;
   Get_data_fred "IR3TIB01TRM156N" s e; Get_data_fred "FEDFUNDS" s e;
   Yf_download "XU100.IS" s e; Yf_download "^GSPC" s e].

(** The report for two evaluated markets. *)
Definition report_log (initial_investment_tl initial_usd_rate final_usd_rate : num)
    (bist_return bist_real_annual bist_final_usd : num)
    (sp500_return sp500_real_annual sp500_final_usd : num) : list (event num) :=
  [Print (Initial_investment initial_investment_tl);
   Print (Initial_usdtry_rate initial_usd_rate);
   Print (Final_usdtry_rate final_usd_rate);
   Print (Results_header "BIST 100");
   Print (Total_nominal_return (bist_return * of_Z 100)%num);
   Print (Annual_real_return (bist_real_annual * of_Z 100)%num);
   Print (Final_value (to_tl bist_final_usd final_usd_rate));
   Print (Results_header "S&P 500");
   Print (Total_nominal_return (sp500_return * of_Z 100)%num);
   Print (Annual_real_return (sp500_real_annual * of_Z 100)%num);
   Print (Final_value (to_tl sp500_final_usd final_usd_rate));
   Bar_chart ["BIST 100"; "S&P 500"]%string
     [to_tl bist_final_usd final_usd_rate; to_tl sp500_final_usd final_usd_rate]].

(** A complete run: every request answered with enough data.  Both markets
    are evaluated on the investment converted at the first exchange rate,
    and both final values are converted back at the last one. *)
Lemma main_presents_results inv s e i f rest ti ui tr ur b0 b1 brest s0 s1 srest :
  yf_download w "USDTRY=X" s e = Some (i :: f :: rest) ->
  pdr_get_data_fred w "TURCPIALLMINMEI" s e = Some ti ->
  pdr_get_data_fred w "CPIAUCSL" s e = Some ui ->
  pdr_get_data_fred w "IR3TIB01TRM156N" s e = Some tr ->
  pdr_get_data_fred w "FEDFUNDS" s e = Some ur ->
  yf_download w "XU100.IS" s e = Some (b0 :: b1 :: brest) ->
  yf_download w "^GSPC" s e = Some (s0 :: s1 :: srest) ->
  is_zero (years_of s e) = false ->
  match computed b0 (last (b1 :: brest) b0) (to_usd inv i) s e (inflation_rate_of ti),
        computed s0 (last (s1 :: srest) s0) (to_usd inv i) s e (inflation_rate_of ui)
  with
  | (Some b_return, Some b_real, Some b_final), (Some s_return, Some s_real, Some s_final) =>
      main w inv s e []
      = (Returned tt,
         requests s e
         ++ report_log inv i (last (f :: rest) i)
              b_return b_real b_final s_return s_real s_final)
  | _, _ => False
  end.
Proof.
  intros Husd Hti Hui Htr Hur Hb Hs Hz.
  unfold computed.
  unfold main, try_download, get_fred_data. unfold bind, print, emit, ret.
  rewrite Husd, Hti, Hui, Htr, Hur.
  unfold evaluate_and_report, bind.
  rewrite calculate_returns_cases. unfold classify. rewrite Hz, Hb.
  rewrite calculate_returns_cases. unfold classify. rewrite Hz, Hs.
  reflexivity.
Qed.

(** A run over a range that is zero years long, with every frame up to the
    prices of BIST 100 there, ends inside the first evaluation. *)
Lemma main_divides_by_zero_years inv s e i f rest ti ui tr ur b0 b1 brest :
  yf_download w "USDTRY=X" s e = Some (i :: f :: rest) ->
  pdr_get_data_fred w "TURCPIALLMINMEI" s e = Some ti ->
  pdr_get_data_fred w "CPIAUCSL" s e = Some ui ->
  pdr_get_data_fred w "IR3TIB01TRM156N" s e = Some tr ->
  pdr_get_data_fred w "FEDFUNDS" s e = Some ur ->
  yf_download w "XU100.IS" s e = Some (b0 :: b1 :: brest) ->
  is_zero (years_of s e) = true ->
  main w inv s e [] = (Raised ZeroDivisionError, firstn 6 (requests s e)).
Proof.
  intros Husd Hti Hui Htr Hur Hb Hz.
  unfold main, try_download, get_fred_data. unfold bind, print, emit, ret.
  rewrite Husd, Hti, Hui, Htr, Hur.
  unfold evaluate_and_report, bind.
  rewrite calculate_returns_cases. unfold classify. rewrite Hz, Hb.
  reflexivity.
Qed.

End OrchestrationFacts.

(* ===================================================================== *)
(** * Currency conversion (lines 75-79 and 108-109) *)
(* ===================================================================== *)

(** C6, the claim as stated fails on doubles.  One lira converted at the
    rate 49 and back at the same rate is not one lira; converted back at the
    next double after 49, a different rate, it is one lira. *)
Lemma currency_round_trip_rounds_binary64 :
  (forall libm_pow : float -> float -> float,
      to_tl (A_num := binary64 libm_pow) (to_usd (A_num := binary64 libm_pow) 1 49) 49
      <> 1)%float
  /\ (forall libm_pow : float -> float -> float,
         to_tl (A_num := binary64 libm_pow)
           (to_usd (A_num := binary64 libm_pow) 1 49) (next_up 49) = 1)%float
  /\ (next_up 49 <> 49)%float.
Proof.
  split; [|split].
  - intros libm_pow. apply float_neq. vm_compute. discriminate.
  - intros libm_pow. vm_compute. reflexivity.
  - apply float_neq. vm_compute. discriminate.
Qed.

(** C6 (as amended).  In a complete run [main] divides the investment by the
    first exchange rate of the USD/TRY frame before it hands it to the two
    evaluations, and multiplies each final value by the last exchange rate
    of that frame before it prints and charts it.  In exact arithmetic,
    dividing and multiplying by the same nonzero rate gives the amount back,
    and multiplying by a different rate does not (for a nonzero amount). *)
Theorem currency_round_trip :
  (forall (num : Type) (A_num : Arith num) (w : world num)
          (initial_investment_tl : num) (start_date end_date : date)
          (i f : num) (rest ti ui tr ur : list num)
          (b0 b1 : num) (brest : list num) (s0 s1 : num) (srest : list num),
      yf_download w "USDTRY=X" start_date end_date = Some (i :: f :: rest) ->
      pdr_get_data_fred w "TURCPIALLMINMEI" start_date end_date = Some ti ->
      pdr_get_data_fred w "CPIAUCSL" start_date end_date = Some ui ->
      pdr_get_data_fred w "IR3TIB01TRM156N" start_date end_date = Some tr ->
      pdr_get_data_fred w "FEDFUNDS" start_date end_date = Some ur ->
      yf_download w "XU100.IS" start_date end_date = Some (b0 :: b1 :: brest) ->
      yf_download w "^GSPC" start_date end_date = Some (s0 :: s1 :: srest) ->
      is_zero (years_of start_date end_date) = false ->
      let initial_usd_rate := i in
      let final_usd_rate := last (f :: rest) i in
      exists b_return b_real b_final_usd s_return s_real s_final_usd : num,
        fst (calculate_returns w "XU100.IS" (initial_investment_tl / initial_usd_rate)%num
               start_date end_date (inflation_rate_of ti) (interest_rate_of tr) [])
        = Returned (Some b_return, Some b_real, Some b_final_usd)
        /\ fst (calculate_returns w "^GSPC" (initial_investment_tl / initial_usd_rate)%num
                  start_date end_date (inflation_rate_of ui) (interest_rate_of ur) [])
           = Returned (Some s_return, Some s_real, Some s_final_usd)
        /\ main w initial_investment_tl start_date end_date []
           = (Returned tt,
              requests start_date end_date
              ++ [Print (Initial_investment initial_investment_tl);
                  Print (Initial_usdtry_rate initial_usd_rate);
                  Print (Final_usdtry_rate final_usd_rate);
                  Print (Results_header "BIST 100");
                  Print (Total_nominal_return (b_return * of_Z 100)%num);
                  Print (Annual_real_return (b_real * of_Z 100)%num);
                  Print (Final_value (b_final_usd * final_usd_rate)%num);
                  Print (Results_header "S&P 500");
                  Print (Total_nominal_return (s_return * of_Z 100)%num);
                  Print (Annual_real_return (s_real * of_Z 100)%num);
                  Print (Final_value (s_final_usd * final_usd_rate)%num);
                  Bar_chart ["BIST 100"; "S&P 500"]%string
                    [(b_final_usd * final_usd_rate)%num;
                     (s_final_usd * final_usd_rate)%num]]))
  /\ (forall (num : Type) (A_num : Arith num) (amount rate : num),
         to_usd amount rate = (amount / rate)%num
         /\ to_tl amount rate = (amount * rate)%num)
  /\ (forall amount initial_rate : R,
         initial_rate <> 0%R ->
         to_tl (A_num := exact) (to_usd (A_num := exact) amount initial_rate) initial_rate
         = amount)
  /\ (forall amount initial_rate final_rate : R,
         initial_rate <> 0%R -> final_rate <> initial_rate -> amount <> 0%R ->
         to_tl (A_num := exact) (to_usd (A_num := exact) amount initial_rate) final_rate
         <> amount).
Proof.
  split; [|split; [intros; split; reflexivity|split]].
  - intros num A_num w inv s e i f rest ti ui tr ur b0 b1 brest s0 s1 srest
           Husd Hti Hui Htr Hur Hb Hs Hz initial_usd_rate final_usd_rate.
    subst initial_usd_rate final_usd_rate.
    pose proof (@main_presents_results _ _ w inv s e i f rest ti ui tr ur b0 b1 brest
                  s0 s1 srest Husd Hti Hui Htr Hur Hb Hs Hz) as H.
    rewrite !calculate_returns_cases. unfold classify. rewrite Hz, Hb, Hs.
    unfold computed in *. do 6 eexists.
    split; [reflexivity|]. split; [reflexivity|]. exact H.
  - intros amount i Hi. unfold to_tl, to_usd. simpl. field. exact Hi.
  - intros amount i f Hi Hf Ha. unfold to_tl, to_usd. simpl. intros E.
    apply Hf. apply (Rmult_eq_reg_l (amount / i)%R).
    + rewrite E. field. exact Hi.
    + unfold Rdiv. apply Rmult_integral_contrapositive_currified; auto.
      now apply Rinv_neq_0_compat.
Qed.

Lemma currency_round_trip_witness :
  (exists b_return b_real b_final_usd s_return s_real s_final_usd : R,
      fst (calculate_returns (A_num := exact)
             (constant_world (Some [30; 33]%R) (Some [100; 101; 102]%R))
             "XU100.IS" (1000 / 30)%R 0%Z 365%Z
             (inflation_rate_of (A_num := exact) [100; 101; 102]%R)
             (interest_rate_of (A_num := exact) [100; 101; 102]%R) [])
      = Returned (Some b_return, Some b_real, Some b_final_usd)
      /\ fst (calculate_returns (A_num := exact)
                (constant_world (Some [30; 33]%R) (Some [100; 101; 102]%R))
                "^GSPC" (1000 / 30)%R 0%Z 365%Z
                (inflation_rate_of (A_num := exact) [100; 101; 102]%R)
                (interest_rate_of (A_num := exact) [100; 101; 102]%R) [])
         = Returned (Some s_return, Some s_real, Some s_final_usd)
      /\ main (A_num := exact)
           (constant_world (Some [30; 33]%R) (Some [100; 101; 102]%R))
           1000%R 0%Z 365%Z []
         = (Returned tt,
            requests 0%Z 365%Z
            ++ [Print (Initial_investment 1000%R);
                Print (Initial_usdtry_rate 30%R);
                Print (Final_usdtry_rate 33%R);
                Print (Results_header "BIST 100");
                Print (Total_nominal_return (b_return * 100)%R);
                Print (Annual_real_return (b_real * 100)%R);
                Print (Final_value (b_final_usd * 33)%R);
                Print (Results_header "S&P 500");
                Print (Total_nominal_return (s_return * 100)%R);
                Print (Annual_real_return (s_real * 100)%R);
                Print (Final_value (s_final_usd * 33)%R);
                Bar_chart ["BIST 100"; "S&P 500"]%string
                  [(b_final_usd * 33)%R; (s_final_usd * 33)%R]]))
  /\ to_tl (A_num := exact) (to_usd (A_num := exact) 1000%R 49%R) 49%R = 1000%R
  /\ to_tl (A_num := exact) (to_usd (A_num := exact) 1000%R 49%R) 50%R <> 1000%R.
Proof.
  destruct currency_round_trip as (in_main & _ & same & different).
  split; [|split].
  - apply (in_main R exact (constant_world (Some [30; 33]%R) (Some [100; 101; 102]%R))
             1000%R 0%Z 365%Z 30%R 33%R []
             [100; 101; 102]%R [100; 101; 102]%R [100; 101; 102]%R [100; 101; 102]%R
             30%R 33%R [] 30%R 33%R []); try reflexivity.
    apply exact_years_nonzero. lia.
  - apply (same 1000%R 49%R). lra.
  - apply (different 1000%R 49%R 50%R); lra.
Defined.

(* ===================================================================== *)
(** * The rate aggregation in [main] (lines 92-95) *)
(* ===================================================================== *)




(* ===================================================================== *)
(** * The failures of a run *)
(* ===================================================================== *)

(** C7.  Fail-fast on the currency pair: when the USD/TRY download raises or
    delivers fewer than two rows, the run consists of that one request and
    one error message; no economic series is requested (nor anything else). *)
Theorem main_fails_fast :
  forall (num : Type) (A_num : Arith num) (w : world num)
         (initial_investment_tl : num) (start_date end_date : date),
    unavailable (yf_download w "USDTRY=X" start_date end_date) = true ->
    exists m : message num,
      main w initial_investment_tl start_date end_date []
      = (Returned tt, [Yf_download "USDTRY=X" start_date end_date; Print m])
      /\ is_error_message m = true
      /\ existsb is_fred_request
           (snd (main w initial_investment_tl start_date end_date [])) = false.
Proof.
  intros num A_num w inv s e H.
  unfold main, try_download. unfold bind, print, emit, ret. simpl.
  destruct (yf_download w "USDTRY=X" s e) as [[|i [|f rest]]|];
    try discriminate H; simpl; eexists; repeat split.
Qed.

Lemma main_fails_fast_witness :
  exists m : message R,
    main (A_num := exact) (constant_world None (Some [100; 101; 102]%R)) 1000%R 0%Z 365%Z []
    = (Returned tt, [Yf_download "USDTRY=X" 0%Z 365%Z; Print m])
    /\ is_error_message m = true
    /\ existsb is_fred_request
         (snd (main (A_num := exact) (constant_world None (Some [100; 101; 102]%R))
                 1000%R 0%Z 365%Z [])) = false.
Proof.
  apply (@main_fails_fast R exact (constant_world None (Some [100; 101; 102]%R))).
  reflexivity.
Defined.

(** C8, the claim as stated fails: a run that presents no results does not
    always print an error message.  Over a range from a day to the same day,
    with every frame there, the evaluation of BIST 100 divides by zero
    years; nothing catches the exception, and the run ends with it after
    its six requests, having printed nothing at all. *)
Lemma main_zero_range_prints_nothing :
  (forall libm_pow : float -> float -> float,
      main (A_num := binary64 libm_pow)
        (constant_world (Some [100; 150]%float) (Some [100; 101; 102]%float))
        1000%float 738000%Z 738000%Z []
      = (Raised ZeroDivisionError, firstn 6 (requests 738000%Z 738000%Z)))
  /\ main (A_num := exact)
       (constant_world (Some [100; 150]%R) (Some [100; 101; 102]%R))
       1000%R 738000%Z 738000%Z []
     = (Raised ZeroDivisionError, firstn 6 (requests 738000%Z 738000%Z))
  /\ existsb (is_result (num := R)) (firstn 6 (requests 738000%Z 738000%Z)) = false
  /\ existsb (is_print (num := R)) (firstn 6 (requests 738000%Z 738000%Z)) = false.
Proof.
  split; [|split; [|split; reflexivity]]; [intros libm_pow|].
  - apply (@main_divides_by_zero_years float (binary64 libm_pow)
             (constant_world (Some [100; 150]%float) (Some [100; 101; 102]%float))
             1000%float 738000%Z 738000%Z 100%float 150%float []
             [100; 101; 102]%float [100; 101; 102]%float
             [100; 101; 102]%float [100; 101; 102]%float 100%float 150%float []);
      try reflexivity.
  - apply (@main_divides_by_zero_years R exact
             (constant_world (Some [100; 150]%R) (Some [100; 101; 102]%R))
             1000%R 738000%Z 738000%Z 100%R 150%R []
             [100; 101; 102]%R [100; 101; 102]%R
             [100; 101; 102]%R [100; 101; 102]%R 100%R 150%R []);
      try reflexivity.
    apply exact_zero_years.
Qed.

(** C8 (as amended).  No partial report.  If the evaluation of either market
    fails, the run presents no result at all; if a run presents any result,
    both evaluations succeeded, the chart is shown, no error message is
    printed and the run returns; and when every frame is there and both
    evaluations succeed the results are presented.  A run that presents no
    result either returns after printing an error message, or, on a range
    that is zero years long, ends with [ZeroDivisionError] right after a
    download request, without a message.  On a range that is not zero years
    long every run returns. *)
Theorem no_partial_report :
  forall (num : Type) (A_num : Arith num) (w : world num)
         (initial_investment_tl : num) (start_date end_date : date),
    let run := main w initial_investment_tl start_date end_date [] in
    (evaluation_fails w "XU100.IS" start_date end_date
     \/ evaluation_fails w "^GSPC" start_date end_date ->
     existsb is_result (snd run) = false)
    /\ (existsb is_result (snd run) = true ->
        evaluation_succeeds w "XU100.IS" start_date end_date
        /\ evaluation_succeeds w "^GSPC" start_date end_date
        /\ existsb is_chart (snd run) = true
        /\ existsb is_error (snd run) = false
        /\ fst run = Returned tt)
    /\ (existsb is_result (snd run) = false ->
        match fst run with
        | Returned _ =>
            exists (before : list (event num)) (m : message num),
              snd run = before ++ [Print m] /\ is_error_message m = true
        | Raised ex =>
            ex = ZeroDivisionError
            /\ is_zero (years_of start_date end_date) = true
            /\ exists (before : list (event num)) (ticker : string),
                 snd run = before ++ [Yf_download ticker start_date end_date]
        end)
    /\ (is_zero (years_of start_date end_date) = false -> fst run = Returned tt)
    /\ (unavailable (yf_download w "USDTRY=X" start_date end_date) = false ->
        pdr_get_data_fred w "TURCPIALLMINMEI" start_date end_date <> None ->
        pdr_get_data_fred w "CPIAUCSL" start_date end_date <> None ->
        pdr_get_data_fred w "IR3TIB01TRM156N" start_date end_date <> None ->
        pdr_get_data_fred w "FEDFUNDS" start_date end_date <> None ->
        evaluation_succeeds w "XU100.IS" start_date end_date ->
        evaluation_succeeds w "^GSPC" start_date end_date ->
        existsb is_result (snd run) = true).
Proof.
  intros num A_num w inv s e run. subst run.
  rewrite !evaluation_fails_iff, !evaluation_succeeds_iff.
  unfold main, try_download, get_fred_data. unfold bind, print, emit, ret. simpl.
  destruct (yf_download w "USDTRY=X" s e) as [[|i [|f rest]]|]; simpl.
  1,2,4: presents_nothing.
  repeat step_fred.
  2-16: presents_nothing.
  unfold evaluate_and_report, bind.
  rewrite calculate_returns_cases. unfold classify.
  destruct (is_zero (years_of s e)) eqn:Hz;
    destruct (yf_download w "XU100.IS" s e) as [[|b0 [|b1 brest]]|]; simpl.
  all: try (rewrite calculate_returns_cases; unfold classify; rewrite Hz;
            destruct (yf_download w "^GSPC" s e) as [[|s0 [|s1 srest]]|]; simpl).
  all: unfold report, number, bind, print, emit, ret; simpl.
  all: try presents_nothing.
  split; [intros [H|H]; discriminate H|].
  split; [intros _; repeat split; reflexivity|].
  split; [discriminate|]. split; reflexivity.
Qed.

Lemma no_partial_report_witness :
  let w := {| yf_download := fun ticker _ _ =>
                if (ticker =? "^GSPC")%string then None else Some [100; 150]%R;
              pdr_get_data_fred := fun _ _ _ => Some [100; 101; 102]%R |} in
  let run := main (A_num := exact) w 1000%R 0%Z 365%Z [] in
  evaluation_fails (A_num := exact) w "^GSPC" 0%Z 365%Z
  /\ existsb is_result (snd run) = false
  /\ fst run = Returned tt
  /\ exists (before : list (event R)) (m : message R),
       snd run = before ++ [Print m] /\ is_error_message m = true.
Proof.
  intros w run.
  destruct (@no_partial_report R exact w 1000%R 0%Z 365%Z)
    as (fails & _ & otherwise & returns & _).
  assert (Hfails : evaluation_fails (A_num := exact) w "^GSPC" 0%Z 365%Z)
    by (apply evaluation_fails_iff; reflexivity).
  assert (Hnone : existsb is_result (snd run) = false)
    by (apply fails; right; exact Hfails).
  assert (Hreturns : fst run = Returned tt)
    by (apply returns; apply exact_years_nonzero; lia).
  split; [exact Hfails|]. split; [exact Hnone|]. split; [exact Hreturns|].
  specialize (otherwise Hnone). fold run in otherwise.
  rewrite Hreturns in otherwise. exact otherwise.
Defined.

(* ===================================================================== *)
(** * Further properties of the script *)
(* ===================================================================== *)

(** ** [get_fred_data] and the requests of a run *)

Section Requests.

Context {num : Type} {A_num : Arith num}.
Variable w : world num.

(** A request to one of the two data services. *)
Definition is_request (ev : event num) : bool :=
  match ev with
  | Yf_download _ _ _ | Get_data_fred _ _ _ => true
  | _ => false
  end.

Definition is_equity_download (ev : event num) : bool :=
  match ev with
  | Yf_download "XU100.IS" _ _ | Yf_download "^GSPC" _ _ => true
  | _ => false
  end.

End Requests.

(** [get_fred_data] turns the exception of the service into [None]: it never
    raises, it sends exactly one request, it prints the download error
    exactly when it returns [None], and it hands the frame on unchanged. *)
Theorem get_fred_data_contract :
  forall (num : Type) (A_num : Arith num) (w : world num)
         (series : string) (start_date end_date : date) (log : list (event num)),
    exists (result : option (list num)) (printed : list (event num)),
      get_fred_data w series start_date end_date log
      = (Returned result,
         log ++ Get_data_fred series start_date end_date :: printed)
      /\ result = pdr_get_data_fred w series start_date end_date
      /\ printed = match result with
                   | Some _ => []
                   | None => [Print Data_download_error]
                   end.
Proof.
  intros num A_num w series s e log.
  unfold get_fred_data, bind, print, emit, ret.
  destruct (pdr_get_data_fred w series s e) as [data|]; do 2 eexists;
    (split; [|split; reflexivity]).
  - reflexivity.
  - now rewrite <- app_assoc.
Qed.

(** The requests of a run are always an initial part of the same sequence:
    USD/TRY, the four economic series, BIST 100, S&P 500.  No request is
    repeated, none is sent out of order, whatever the services answer. *)
Theorem main_requests_in_order :
  forall (num : Type) (A_num : Arith num) (w : world num)
         (initial_investment_tl : num) (start_date end_date : date),
    exists k : nat,
      filter is_request (snd (main w initial_investment_tl start_date end_date []))
      = firstn k (requests start_date end_date).
Proof.
  intros num A_num w inv s e.
  unfold main, try_download, get_fred_data. unfold bind, print, emit, ret. simpl.
  destruct (yf_download w "USDTRY=X" s e) as [[|i [|f rest]]|]; simpl.
  1,2,4: exists 1%nat; reflexivity.
  repeat step_fred.
  2-16: exists 5%nat; reflexivity.
  unfold evaluate_and_report, bind.
  rewrite calculate_returns_cases. unfold classify.
  destruct (is_zero (years_of s e)) eqn:Hz;
    destruct (yf_download w "XU100.IS" s e) as [[|b0 [|b1 brest]]|]; simpl.
  all: try (exists 6%nat; reflexivity).
  all: rewrite calculate_returns_cases; unfold classify; rewrite Hz;
    destruct (yf_download w "^GSPC" s e) as [[|s0 [|s1 srest]]|]; simpl.
  all: unfold report, number, bind, print, emit, ret; simpl.
  all: exists 7%nat; reflexivity.
Qed.

(** ** The paths of [main] that the error messages and exceptions mark *)

Definition is_download_error {num : Type} (ev : event num) : bool :=
  match ev with
  | Print Data_download_error => true
  | _ => false
  end.

Definition missing {A : Type} (answer : option A) : nat :=
  match answer with
  | Some _ => 0
  | None => 1
  end.

(** When the exchange rates are there and at least one economic series
    cannot be fetched, the run still requests all four series (a failure of
    the first does not stop the others), prints one download error per
    failed request, never downloads an equity index, presents no result and
    ends with the message that the rates could not be fetched. *)
Theorem main_aborts_on_missing_rates :
  forall (num : Type) (A_num : Arith num) (w : world num)
         (initial_investment_tl : num) (start_date end_date : date)
         (i f : num) (rest : list num),
    yf_download w "USDTRY=X" start_date end_date = Some (i :: f :: rest) ->
    pdr_get_data_fred w "TURCPIALLMINMEI" start_date end_date = None
    \/ pdr_get_data_fred w "CPIAUCSL" start_date end_date = None
    \/ pdr_get_data_fred w "IR3TIB01TRM156N" start_date end_date = None
    \/ pdr_get_data_fred w "FEDFUNDS" start_date end_date = None ->
    let run := main w initial_investment_tl start_date end_date [] in
    fst run = Returned tt
    /\ filter is_request (snd run) = firstn 5 (requests start_date end_date)
    /\ existsb is_result (snd run) = false
    /\ List.length (filter is_download_error (snd run))
       = (missing (pdr_get_data_fred w "TURCPIALLMINMEI" start_date end_date)
          + missing (pdr_get_data_fred w "CPIAUCSL" start_date end_date)
          + missing (pdr_get_data_fred w "IR3TIB01TRM156N" start_date end_date)
          + missing (pdr_get_data_fred w "FEDFUNDS" start_date end_date))%nat
    /\ exists before, snd run = before ++ [Print Unable_to_fetch_rates].
Proof.
  intros num A_num w inv s e i f rest Husd Hmissing run. subst run.
  unfold main, try_download, get_fred_data. unfold bind, print, emit, ret.
  rewrite Husd. simpl.
  destruct (pdr_get_data_fred w "TURCPIALLMINMEI" s e) as [ti|];
    destruct (pdr_get_data_fred w "CPIAUCSL" s e) as [ui|];
    destruct (pdr_get_data_fred w "IR3TIB01TRM156N" s e) as [tr|];
    destruct (pdr_get_data_fred w "FEDFUNDS" s e) as [ur|]; simpl.
  1: destruct Hmissing as [H|[H|[H|H]]]; discriminate H.
  all: repeat split; try reflexivity.
  all: match goal with
       | |- exists before, ?L = _ =>
           exists (removelast L);
           etransitivity;
           [ apply (@app_removelast_last _ L (Print Calculation_error)); discriminate
           | reflexivity ]
       end.
Qed.

Lemma main_aborts_on_missing_rates_witness :
  let run := main (A_num := exact) (constant_world (Some [30; 33]%R) None)
               1000%R 0%Z 365%Z [] in
  fst run = Returned tt
  /\ filter is_request (snd run) = firstn 5 (requests 0%Z 365%Z)
  /\ existsb is_result (snd run) = false
  /\ List.length (filter is_download_error (snd run)) = (1 + 1 + 1 + 1)%nat
  /\ exists before, snd run = before ++ [Print Unable_to_fetch_rates].
Proof.
  apply (@main_aborts_on_missing_rates R exact (constant_world (Some [30; 33]%R) None)
           1000%R 0%Z 365%Z 30%R 33%R []).
  - reflexivity.
  - left. reflexivity.
Defined.

(** A run over a range that is zero years long, with every frame there,
    stops with [ZeroDivisionError] inside the evaluation of the first
    market: it has sent six requests and printed nothing, neither results
    nor an error message.  The same start and end date is such a range. *)
Theorem main_zero_length_range :
  (forall (num : Type) (A_num : Arith num) (w : world num)
          (initial_investment_tl : num) (start_date end_date : date)
          (i f : num) (rest ti ui tr ur : list num) (b0 b1 : num) (brest : list num),
      yf_download w "USDTRY=X" start_date end_date = Some (i :: f :: rest) ->
      pdr_get_data_fred w "TURCPIALLMINMEI" start_date end_date = Some ti ->
      pdr_get_data_fred w "CPIAUCSL" start_date end_date = Some ui ->
      pdr_get_data_fred w "IR3TIB01TRM156N" start_date end_date = Some tr ->
      pdr_get_data_fred w "FEDFUNDS" start_date end_date = Some ur ->
      yf_download w "XU100.IS" start_date end_date = Some (b0 :: b1 :: brest) ->
      is_zero (years_of start_date end_date) = true ->
      main w initial_investment_tl start_date end_date []
      = (Raised ZeroDivisionError, firstn 6 (requests start_date end_date)))
  /\ (forall (libm_pow : float -> float -> float) (day : date),
         is_zero (Arith := binary64 libm_pow) (years_of (A_num := binary64 libm_pow) day day) = true)
  /\ (forall day : date, is_zero (Arith := exact) (years_of (A_num := exact) day day) = true).
Proof.
  split; [|split; [apply binary64_zero_years|apply exact_zero_years]].
  intros num A_num w inv s e i f rest ti ui tr ur b0 b1 brest
         Husd Hti Hui Htr Hur Hb Hz.
  unfold main, try_download, get_fred_data. unfold bind, print, emit, ret.
  rewrite Husd, Hti, Hui, Htr, Hur.
  unfold evaluate_and_report, bind.
  rewrite calculate_returns_cases. unfold classify. rewrite Hz, Hb.
  reflexivity.
Qed.

Lemma main_zero_length_range_witness :
  main (A_num := exact)
    (constant_world (Some [30; 33]%R) (Some [100; 101; 102]%R))
    1000%R 738000%Z 738000%Z []
  = (Raised ZeroDivisionError, firstn 6 (requests 738000%Z 738000%Z)).
Proof.
  destruct main_zero_length_range as (crash & _ & in_exact).
  apply (crash R exact
           (constant_world (Some [30; 33]%R) (Some [100; 101; 102]%R))
           1000%R 738000%Z 738000%Z 30%R 33%R []
           [100; 101; 102]%R [100; 101; 102]%R
           [100; 101; 102]%R [100; 101; 102]%R 30%R 33%R []);
    try reflexivity.
  apply in_exact.
Defined.

(** A complete run.  When every frame is there and the range is not zero
    years long, both markets are evaluated on the investment converted to
    dollars at the first exchange rate, each with the inflation rate of its
    own country, and the run consists of the seven requests followed by the
    report of exactly the two returned triples, the final values converted
    back at the last exchange rate. *)
Theorem main_complete_run :
  forall (num : Type) (A_num : Arith num) (w : world num)
         (initial_investment_tl : num) (start_date end_date : date)
         (i f : num) (rest ti ui tr ur : list num)
         (b0 b1 : num) (brest : list num) (s0 s1 : num) (srest : list num),
    yf_download w "USDTRY=X" start_date end_date = Some (i :: f :: rest) ->
    pdr_get_data_fred w "TURCPIALLMINMEI" start_date end_date = Some ti ->
    pdr_get_data_fred w "CPIAUCSL" start_date end_date = Some ui ->
    pdr_get_data_fred w "IR3TIB01TRM156N" start_date end_date = Some tr ->
    pdr_get_data_fred w "FEDFUNDS" start_date end_date = Some ur ->
    yf_download w "XU100.IS" start_date end_date = Some (b0 :: b1 :: brest) ->
    yf_download w "^GSPC" start_date end_date = Some (s0 :: s1 :: srest) ->
    is_zero (years_of start_date end_date) = false ->
    exists b_return b_real b_final s_return s_real s_final : num,
      fst (calculate_returns w "XU100.IS" (to_usd initial_investment_tl i)
             start_date end_date (inflation_rate_of ti) (interest_rate_of tr) [])
      = Returned (Some b_return, Some b_real, Some b_final)
      /\ fst (calculate_returns w "^GSPC" (to_usd initial_investment_tl i)
                start_date end_date (inflation_rate_of ui) (interest_rate_of ur) [])
         = Returned (Some s_return, Some s_real, Some s_final)
      /\ main w initial_investment_tl start_date end_date []
         = (Returned tt,
            requests start_date end_date
            ++ report_log initial_investment_tl i (last (f :: rest) i)
                 b_return b_real b_final s_return s_real s_final).
Proof.
  intros num A_num w inv s e i f rest ti ui tr ur b0 b1 brest s0 s1 srest
         Husd Hti Hui Htr Hur Hb Hs Hz.
  rewrite !calculate_returns_cases. unfold classify. rewrite Hz, Hb, Hs.
  unfold computed. do 6 eexists. split; [reflexivity|]. split; [reflexivity|].
  unfold main, try_download, get_fred_data. unfold bind, print, emit, ret.
  rewrite Husd, Hti, Hui, Htr, Hur.
  unfold evaluate_and_report, bind.
  rewrite calculate_returns_cases. unfold classify. rewrite Hz, Hb.
  rewrite calculate_returns_cases. unfold classify. rewrite Hz, Hs.
  reflexivity.
Qed.

Lemma main_complete_run_witness :
  exists b_return b_real b_final s_return s_real s_final : R,
    fst (calculate_returns (A_num := exact)
           (constant_world (Some [100; 150]%R) (Some [100; 101; 102]%R))
           "XU100.IS" (to_usd (A_num := exact) 1000 100)%R 0%Z 365%Z
           (inflation_rate_of (A_num := exact) [100; 101; 102]%R)
           (interest_rate_of (A_num := exact) [100; 101; 102]%R) [])
    = Returned (Some b_return, Some b_real, Some b_final)
    /\ fst (calculate_returns (A_num := exact)
              (constant_world (Some [100; 150]%R) (Some [100; 101; 102]%R))
              "^GSPC" (to_usd (A_num := exact) 1000 100)%R 0%Z 365%Z
              (inflation_rate_of (A_num := exact) [100; 101; 102]%R)
              (interest_rate_of (A_num := exact) [100; 101; 102]%R) [])
       = Returned (Some s_return, Some s_real, Some s_final)
    /\ main (A_num := exact)
         (constant_world (Some [100; 150]%R) (Some [100; 101; 102]%R))
         1000%R 0%Z 365%Z []
       = (Returned tt,
          requests 0%Z 365%Z
          ++ report_log (A_num := exact) 1000%R 100%R (last [150%R] 100%R)
               b_return b_real b_final s_return s_real s_final).
Proof.
  apply (@main_complete_run R exact
           (constant_world (Some [100; 150]%R) (Some [100; 101; 102]%R))
           1000%R 0%Z 365%Z 100%R 150%R []
           [100; 101; 102]%R [100; 101; 102]%R [100; 101; 102]%R [100; 101; 102]%R
           100%R 150%R [] 100%R 150%R []); try reflexivity.
  apply exact_years_nonzero. lia.
Defined.

(** The interest rates are fetched and averaged, and nothing of them reaches
    the output.  Two runs whose data services answer alike, except for the
    readings in the two interest-rate frames (each frame is there in both
    runs or in neither), end the same way with the same log. *)
Theorem main_ignores_interest_rates :
  forall (num : Type) (A_num : Arith num) (w1 w2 : world num)
         (initial_investment_tl : num) (start_date end_date : date),
    (forall ticker : string,
        yf_download w1 ticker start_date end_date
        = yf_download w2 ticker start_date end_date) ->
    pdr_get_data_fred w1 "TURCPIALLMINMEI" start_date end_date
    = pdr_get_data_fred w2 "TURCPIALLMINMEI" start_date end_date ->
    pdr_get_data_fred w1 "CPIAUCSL" start_date end_date
    = pdr_get_data_fred w2 "CPIAUCSL" start_date end_date ->
    (pdr_get_data_fred w1 "IR3TIB01TRM156N" start_date end_date = None
     <-> pdr_get_data_fred w2 "IR3TIB01TRM156N" start_date end_date = None) ->
    (pdr_get_data_fred w1 "FEDFUNDS" start_date end_date = None
     <-> pdr_get_data_fred w2 "FEDFUNDS" start_date end_date = None) ->
    main w1 initial_investment_tl start_date end_date []
    = main w2 initial_investment_tl start_date end_date [].
Proof.
  intros num A_num w1 w2 inv s e Hyf Hti Hui Htr Hur.
  unfold main, try_download, get_fred_data. unfold bind, print, emit, ret.
  rewrite (Hyf "USDTRY=X"%string), Hti, Hui.
  destruct (yf_download w2 "USDTRY=X" s e) as [[|i [|f rest]]|]; try reflexivity.
  destruct (pdr_get_data_fred w2 "TURCPIALLMINMEI" s e) as [ti|];
    destruct (pdr_get_data_fred w2 "CPIAUCSL" s e) as [ui|];
    destruct (pdr_get_data_fred w1 "IR3TIB01TRM156N" s e) as [tr1|];
    destruct (pdr_get_data_fred w2 "IR3TIB01TRM156N" s e) as [tr2|];
    try (now (destruct Htr as [Htr Htr']; (discriminate (Htr eq_refl) || discriminate (Htr' eq_refl))));
    destruct (pdr_get_data_fred w1 "FEDFUNDS" s e) as [ur1|];
    destruct (pdr_get_data_fred w2 "FEDFUNDS" s e) as [ur2|];
    try (now (destruct Hur as [Hur Hur']; (discriminate (Hur eq_refl) || discriminate (Hur' eq_refl))));
    try reflexivity.
  unfold evaluate_and_report, bind.
  rewrite !calculate_returns_cases. unfold classify. rewrite !Hyf.
  destruct (yf_download w2 "XU100.IS" s e) as [[|b0 [|b1 brest]]|];
    try destruct (is_zero (years_of s e)) eqn:Hz; cbv iota beta;
    try reflexivity;
    rewrite !calculate_returns_cases; unfold classify; rewrite !Hyf;
    reflexivity.
Qed.

Lemma main_ignores_interest_rates_witness :
  main (A_num := exact)
    {| yf_download := fun _ _ _ => Some [100; 150]%R;
       pdr_get_data_fred := fun series _ _ =>
         if (series =? "IR3TIB01TRM156N")%string then Some [10; 20]%R
         else if (series =? "FEDFUNDS")%string then Some [1; 2; 3]%R
         else Some [100; 101; 102]%R |}
    1000%R 0%Z 365%Z []
  = main (A_num := exact)
      {| yf_download := fun _ _ _ => Some [100; 150]%R;
         pdr_get_data_fred := fun series _ _ =>
           if (series =? "IR3TIB01TRM156N")%string then Some [40]%R
           else if (series =? "FEDFUNDS")%string then Some [5; 5]%R
           else Some [100; 101; 102]%R |}
      1000%R 0%Z 365%Z [].
Proof.
  apply (@main_ignores_interest_rates R exact); try reflexivity;
    split; discriminate.
Defined.

(** ** The formulas in exact arithmetic *)

Section ExactReturns.

Local Open Scope R_scope.
Local Existing Instance exact.

Lemma Rpower_pos (x y : R) : 0 < Rpower x y.
Proof. unfold Rpower. apply exp_pos. Qed.

Lemma Rpower_one_base (y : R) : Rpower 1 y = 1.
Proof. unfold Rpower. now rewrite ln_1, Rmult_0_r, exp_0. Qed.

Lemma Rpower_inv_base (x y : R) : 0 < x -> Rpower (/ x) y = / Rpower x y.
Proof.
  intros Hx. unfold Rpower. rewrite ln_Rinv by exact Hx.
  now rewrite <- exp_Ropp, Ropp_mult_distr_r.
Qed.

Lemma Rpower_div_base (a b y : R) :
  0 < a -> 0 < b -> Rpower (a / b) y = Rpower a y / Rpower b y.
Proof.
  intros Ha Hb. unfold Rdiv.
  rewrite <- Rpower_mult_distr by (auto using Rinv_0_lt_compat).
  now rewrite Rpower_inv_base.
Qed.

Lemma Rpower_root_power (a y : R) : 0 < a -> y <> 0 -> Rpower (Rpower a (1 / y)) y = a.
Proof.
  intros Ha Hy. rewrite Rpower_mult.
  replace (1 / y * y) with 1 by (field; exact Hy).
  now apply Rpower_1.
Qed.

(** The values of [computed] for positive prices, spelled out. *)
Lemma exact_growth (initial_price final_price : R) :
  0 < initial_price ->
  1 + total_return_of initial_price final_price = final_price / initial_price.
Proof. intros H. unfold total_return_of. simpl. field. lra. Qed.

Lemma exact_real_base (annual inflation : R) :
  -1 < inflation ->
  1 + calculate_real_return annual inflation = (1 + annual) / (1 + inflation).
Proof. intros H. unfold calculate_real_return. simpl. field. lra. Qed.

Lemma exact_final_value (initial_price final_price investment years inflation : R) :
  0 < initial_price -> 0 < final_price -> years <> 0 -> -1 < inflation ->
  investment
  * Rpower (1 + calculate_real_return
                  (Rpower (1 + total_return_of initial_price final_price) (1 / years) - 1)
                  inflation) years
  = investment * (final_price / initial_price) / Rpower (1 + inflation) years.
Proof.
  intros Hi Hf Hy Hinfl.
  rewrite exact_real_base by exact Hinfl.
  rewrite exact_growth by exact Hi.
  replace (1 + (Rpower (final_price / initial_price) (1 / years) - 1))
    with (Rpower (final_price / initial_price) (1 / years)) by ring.
  assert (Hq : 0 < final_price / initial_price) by (apply Rdiv_lt_0_compat; lra).
  rewrite Rpower_div_base by (apply Rpower_pos || lra).
  rewrite Rpower_root_power by assumption.
  unfold Rdiv. ring.
Qed.

End ExactReturns.

(** The real return and inflation (Fisher's relation), in exact arithmetic:
    [(1 + real) * (1 + inflation) = 1 + nominal]; without inflation the real
    return is the nominal one; positive inflation lowers a return above
    [-1]; and for a fixed inflation above [-1] a higher nominal return gives
    a higher real return. *)
Theorem calculate_real_return_fisher :
  (forall nominal inflation : R,
      (-1 < inflation)%R ->
      ((1 + calculate_real_return (A_num := exact) nominal inflation) * (1 + inflation)
       = 1 + nominal)%R)
  /\ (forall nominal : R, calculate_real_return (A_num := exact) nominal 0%R = nominal)
  /\ (forall nominal inflation : R,
         (-1 < nominal)%R -> (0 < inflation)%R ->
         (calculate_real_return (A_num := exact) nominal inflation < nominal)%R)
  /\ (forall nominal1 nominal2 inflation : R,
         (-1 < inflation)%R -> (nominal1 < nominal2)%R ->
         (calculate_real_return (A_num := exact) nominal1 inflation
          < calculate_real_return (A_num := exact) nominal2 inflation)%R).
Proof.
  split; [|split; [|split]].
  - intros n i Hi. unfold calculate_real_return. simpl. field. lra.
  - intros n. unfold calculate_real_return. simpl. field.
  - intros n i Hn Hi. unfold calculate_real_return. simpl.
    apply (Rmult_lt_reg_r (1 + i)%R); [lra|].
    replace (((1 + n) / (1 + i) - 1) * (1 + i))%R with (n - i)%R by (field; lra).
    nra.
  - intros n1 n2 i Hi Hn. unfold calculate_real_return. simpl.
    apply (Rmult_lt_reg_r (1 + i)%R); [lra|].
    replace (((1 + n1) / (1 + i) - 1) * (1 + i))%R with (n1 - i)%R by (field; lra).
    replace (((1 + n2) / (1 + i) - 1) * (1 + i))%R with (n2 - i)%R by (field; lra).
    lra.
Qed.

Lemma calculate_real_return_fisher_witness :
  ((1 + calculate_real_return (A_num := exact) 0.5 0.25) * (1 + 0.25) = 1 + 0.5)%R
  /\ (calculate_real_return (A_num := exact) 0.5 0.25 < 0.5)%R
  /\ (calculate_real_return (A_num := exact) 0.25 0.25
      < calculate_real_return (A_num := exact) 0.5 0.25)%R.
Proof.
  destruct calculate_real_return_fisher as (fisher & _ & lower & monotone).
  split; [|split].
  - apply (fisher 0.5 0.25)%R. lra.
  - apply (lower 0.5 0.25)%R; lra.
  - apply (monotone 0.25 0.5 0.25)%R; lra.
Defined.

Lemma last_in {A : Type} (l : list A) (d : A) : l <> [] -> In (last l d) l.
Proof.
  induction l as [|x l IH]; intros H; [contradiction|].
  destruct l as [|y l]; [now left|].
  right. apply IH. discriminate.
Qed.

(** The final value in closed form, in exact arithmetic.  For positive
    prices, a range of some length and inflation above [-1], the final value
    is the investment times the growth of the price, deflated by compound
    inflation over the years: [investment * (last / first) / (1 + inflation)
    ^ years].  Annualising and compounding back cancel, so without inflation
    it is [investment * (last / first)], whatever the length of the range. *)
Theorem calculate_returns_final_value :
  forall (w : world R) (ticker : string) (initial_investment : R)
         (start_date end_date : date) (inflation_rate interest_rate : R)
         (log : list (event R)) (prices : list R) (d : R),
    yf_download w ticker start_date end_date = Some prices ->
    (2 <= List.length prices)%nat ->
    start_date <> end_date ->
    Forall (fun p => 0 < p)%R prices ->
    (-1 < inflation_rate)%R ->
    exists total real : R,
      fst (calculate_returns (A_num := exact) w ticker initial_investment
             start_date end_date inflation_rate interest_rate log)
      = Returned (Some total, Some real,
                  Some (initial_investment * (last prices d / hd d prices)
                        / Rpower (1 + inflation_rate)
                            (years_of (A_num := exact) start_date end_date))%R)
      /\ (inflation_rate = 0%R ->
          fst (calculate_returns (A_num := exact) w ticker initial_investment
                 start_date end_date inflation_rate interest_rate log)
          = Returned (Some total, Some real,
                      Some (initial_investment * (last prices d / hd d prices))%R)).
Proof.
  intros w ticker inv s e infl ir log prices d H Hlen Hse Hpos Hinfl.
  destruct prices as [|x [|y rest]]; simpl in Hlen; try lia.
  rewrite calculate_returns_cases. unfold classify.
  rewrite H, (exact_years_nonzero Hse). unfold computed.
  assert (Hx : (0 < x)%R) by (inversion Hpos; assumption).
  assert (Hl : (0 < last (x :: y :: rest) d)%R).
  { rewrite Forall_forall in Hpos. apply Hpos. apply last_in. discriminate. }
  assert (Hy : years_of (A_num := exact) s e <> 0%R).
  { rewrite exact_years_of.
    assert (IZR (e - s) <> 0%R) by (apply not_0_IZR; lia).
    unfold Rdiv. apply Rmult_integral_contrapositive_currified; [assumption|lra]. }
  rewrite (last_cons_default x d (y :: rest)) in Hl |- *.
  do 2 eexists. split.
  - simpl hd. rewrite <- (exact_final_value inv Hx Hl Hy Hinfl). reflexivity.
  - intros ->. simpl hd.
    replace (inv * (last (y :: rest) x / x))%R
      with (inv * (last (y :: rest) x / x) / Rpower (1 + 0) (years_of (A_num := exact) s e))%R
      by (rewrite Rplus_0_r, Rpower_one_base; field; lra).
    rewrite <- (exact_final_value inv Hx Hl Hy Hinfl). reflexivity.
Qed.

Lemma calculate_returns_final_value_witness :
  exists total real : R,
    fst (calculate_returns (A_num := exact) (constant_world (Some [100; 150]%R) None)
           "XU100.IS" 1000%R 0%Z 365%Z 0.2%R 0%R [])
    = Returned (Some total, Some real,
                Some (1000 * (last [100; 150] 0 / hd 0 [100; 150])
                      / Rpower (1 + 0.2) (years_of (A_num := exact) 0%Z 365%Z))%R)
    /\ (0.2%R = 0%R ->
        fst (calculate_returns (A_num := exact) (constant_world (Some [100; 150]%R) None)
               "XU100.IS" 1000%R 0%Z 365%Z 0.2%R 0%R [])
        = Returned (Some total, Some real,
                    Some (1000 * (last [100; 150] 0 / hd 0 [100; 150]))%R)).
Proof.
  apply (@calculate_returns_final_value (constant_world (Some [100; 150]%R) None)
           "XU100.IS"%string 1000%R 0%Z 365%Z 0.2%R 0%R [] [100; 150]%R 0%R).
  - reflexivity.
  - simpl. lia.
  - lia.
  - repeat constructor; lra.
  - lra.
Defined.

(** No domain error in exact arithmetic.  For positive prices, a range of
    some length and inflation above [-1], both bases of [**] are positive:
    the total return and the real annual return are above [-1], and a
    positive investment has a positive final value. *)
Theorem calculate_returns_stays_in_domain :
  forall (w : world R) (ticker : string) (initial_investment : R)
         (start_date end_date : date) (inflation_rate interest_rate : R)
         (log : list (event R)) (prices : list R),
    yf_download w ticker start_date end_date = Some prices ->
    (2 <= List.length prices)%nat ->
    start_date <> end_date ->
    Forall (fun p => 0 < p)%R prices ->
    (-1 < inflation_rate)%R ->
    exists total real final : R,
      fst (calculate_returns (A_num := exact) w ticker initial_investment
             start_date end_date inflation_rate interest_rate log)
      = Returned (Some total, Some real, Some final)
      /\ (-1 < total)%R
      /\ (-1 < real)%R
      /\ ((0 < initial_investment)%R -> (0 < final)%R).
Proof.
  intros w ticker inv s e infl ir log prices H Hlen Hse Hpos Hinfl.
  destruct prices as [|x [|y rest]]; simpl in Hlen; try lia.
  rewrite calculate_returns_cases. unfold classify.
  rewrite H, (exact_years_nonzero Hse). unfold computed.
  assert (Hx : (0 < x)%R) by (inversion Hpos; assumption).
  assert (Hl : (0 < last (y :: rest) x)%R).
  { rewrite <- (last_cons_default x x (y :: rest)).
    rewrite Forall_forall in Hpos. apply Hpos. apply last_in. discriminate. }
  do 3 eexists. split; [reflexivity|].
  assert (Hgrowth : (0 < last (y :: rest) x / x)%R) by (apply Rdiv_lt_0_compat; lra).
  assert (Hreal : (0 < 1 + calculate_real_return (A_num := exact)
                           (Rpower (1 + total_return_of (A_num := exact) x
                                          (last (y :: rest) x))
                              (1 / years_of (A_num := exact) s e) - 1) infl)%R).
  { rewrite exact_real_base by exact Hinfl.
    apply Rdiv_lt_0_compat; [|lra].
    replace (1 + (Rpower (1 + total_return_of (A_num := exact) x (last (y :: rest) x))
                    (1 / years_of (A_num := exact) s e) - 1))%R
      with (Rpower (1 + total_return_of (A_num := exact) x (last (y :: rest) x))
              (1 / years_of (A_num := exact) s e)) by ring.
    apply Rpower_pos. }
  split; [|split].
  - pose proof (exact_growth (last (y :: rest) x) Hx) as E.
    rewrite <- E in Hgrowth. clear - Hgrowth.
    set (total := total_return_of (A_num := exact) x (last (y :: rest) x)) in *.
    clearbody total. lra.
  - clear - Hreal.
    set (real := calculate_real_return (A_num := exact) _ infl) in *.
    clearbody real. lra.
  - intros Hinv. simpl. apply Rmult_lt_0_compat; [exact Hinv|apply Rpower_pos].
Qed.

Lemma calculate_returns_stays_in_domain_witness :
  exists total real final : R,
    fst (calculate_returns (A_num := exact) (constant_world (Some [100; 150]%R) None)
           "XU100.IS" 1000%R 0%Z 365%Z 0.2%R 0%R [])
    = Returned (Some total, Some real, Some final)
    /\ (-1 < total)%R /\ (-1 < real)%R /\ ((0 < 1000)%R -> (0 < final)%R).
Proof.
  apply (@calculate_returns_stays_in_domain (constant_world (Some [100; 150]%R) None)
           "XU100.IS"%string 1000%R 0%Z 365%Z 0.2%R 0%R [] [100; 150]%R).
  - reflexivity.
  - simpl. lia.
  - lia.
  - repeat constructor; lra.
  - lra.
Defined.

(** ** The length of the range on doubles

    Python's calendar runs from year 1 to year 9999, so two dates are at
    most 3652058 days apart.  For every such distance other than zero the
    number of years is a nonzero double; this is checked by running the
    division for every distance. *)

Section Binary64Years.

Local Open Scope float_scope.

(** An integer below 2^63 converts like the primitive conversion. *)
Lemma float_of_Z_pos (p : positive) :
  (Zpos p < Uint63.wB)%Z ->
  float_of_Z (Zpos p) = of_uint63 (Uint63.of_Z (Zpos p)).
Proof.
  intros H. unfold float_of_Z.
  rewrite <- (SF2Prim_Prim2SF (of_uint63 (Uint63.of_Z (Zpos p)))).
  rewrite of_uint63_spec, Uint63.of_Z_spec, Z.mod_small by lia.
  reflexivity.
Qed.

Lemma binary_round_opp (m : positive) (e : Z) :
  binary_round prec emax true m e = SFopp (binary_round prec emax false m e).
Proof.
  unfold binary_round.
  destruct (shl_align m e _) as [mz ez].
  unfold binary_round_aux.
  destruct (shr_fexp prec emax (Z.pos mz) ez loc_Exact) as [mrs' e'].
  destruct (shr_fexp prec emax _ e' loc_Exact) as [mrs'' e''].
  destruct (shr_m mrs''); try reflexivity.
  now destruct (e'' <=? emax - prec)%Z.
Qed.

Lemma float_of_Z_neg (p : positive) :
  (Zpos p < Uint63.wB)%Z ->
  float_of_Z (Zneg p) = - of_uint63 (Uint63.of_Z (Zpos p)).
Proof.
  intros H. unfold float_of_Z. cbn [binary_normalize].
  rewrite binary_round_opp.
  change (binary_round prec emax false p 0)
    with (binary_normalize prec emax (Zpos p) 0 false).
  rewrite <- (Z.mod_small (Zpos p) Uint63.wB) at 1 by lia.
  rewrite <- Uint63.of_Z_spec, <- of_uint63_spec, <- opp_spec.
  apply SF2Prim_Prim2SF.
Qed.

(** The division, for the distance [d] in both directions. *)
Definition years_nonzero (d : positive) : bool :=
  let x := of_uint63 (Uint63.of_Z (Zpos d)) in
  negb (PrimFloat.is_zero (x / float_365_25))
  && negb (PrimFloat.is_zero ((- x) / float_365_25)).

Definition years_nonzero_step (state : positive * bool) : positive * bool :=
  let (d, ok) := state in (Pos.succ d, ok && years_nonzero d).

Definition years_nonzero_upto (n : positive) : bool :=
  snd (Pos.iter years_nonzero_step (1%positive, true) n).

Lemma years_nonzero_upto_spec (n : positive) :
  fst (Pos.iter years_nonzero_step (1%positive, true) n) = Pos.succ n
  /\ (years_nonzero_upto n = true ->
      forall d : positive, (d <= n)%positive -> years_nonzero d = true).
Proof.
  unfold years_nonzero_upto.
  induction n as [|n [IHd IHok]] using Pos.peano_ind.
  - split; [reflexivity|]. simpl. intros H d Hd.
    assert (d = 1%positive) by lia. subst d. exact H.
  - rewrite Pos.iter_succ.
    destruct (Pos.iter years_nonzero_step (1%positive, true) n) as [d0 ok].
    simpl in *. subst d0. split; [reflexivity|].
    intros H d Hd. apply andb_prop in H. destruct H as [Hok Hlast].
    destruct (Pos.eq_dec d (Pos.succ n)) as [->|Hne]; [exact Hlast|].
    apply IHok; [exact Hok|lia].
Qed.

Lemma years_nonzero_all : years_nonzero_upto 3652058 = true.
Proof. vm_compute. reflexivity. Qed.

Lemma years_nonzero_below (d : positive) :
  (Zpos d <= 3652058)%Z -> years_nonzero d = true.
Proof.
  intros H.
  pose proof (years_nonzero_upto_spec 3652058) as [_ Hall].
  specialize (Hall years_nonzero_all).
  apply Hall. apply Pos.leb_le. rewrite Pos2Z.inj_leb. now apply Z.leb_le.
Qed.

End Binary64Years.

(** On doubles the number of years is zero exactly when the two dates are
    the same, for any two dates of the calendar; so a zero-length range is
    the only way for [calculate_returns] to divide by zero. *)
Theorem binary64_years_zero_iff :
  forall (libm_pow : float -> float -> float) (start_date end_date : date),
    (Z.abs (end_date - start_date) <= 3652058)%Z ->
    (is_zero (Arith := binary64 libm_pow)
       (years_of (A_num := binary64 libm_pow) start_date end_date) = true
     <-> start_date = end_date).
Proof.
  intros libm_pow s e Hrange. split.
  - intros Hz. destruct (Z.eq_dec s e) as [E|Hne]; [exact E|exfalso].
    unfold years_of in Hz. cbn [of_Z div days_per_year is_zero binary64] in Hz.
    destruct (e - s)%Z as [|d|d] eqn:Hd.
    + apply Hne. clear - Hd. lia.
    + cbn [Z.abs] in Hrange.
      assert (Hw : (Zpos d < Uint63.wB)%Z)
        by (eapply Z.le_lt_trans; [exact Hrange|reflexivity]).
      pose proof (@years_nonzero_below d Hrange) as H.
      unfold years_nonzero in H. apply andb_prop in H. destruct H as [H _].
      rewrite (@float_of_Z_pos d Hw) in Hz.
      now rewrite Hz in H.
    + cbn [Z.abs] in Hrange.
      assert (Hw : (Zpos d < Uint63.wB)%Z)
        by (eapply Z.le_lt_trans; [exact Hrange|reflexivity]).
      pose proof (@years_nonzero_below d Hrange) as H.
      unfold years_nonzero in H. apply andb_prop in H. destruct H as [_ H].
      rewrite (@float_of_Z_neg d Hw) in Hz.
      now rewrite Hz in H.
  - intros ->. apply binary64_zero_years.
Qed.

Lemma binary64_years_zero_iff_witness :
  is_zero (Arith := binary64 (fun x _ => x))
    (years_of (A_num := binary64 (fun x _ => x)) 738000%Z 738365%Z) = true
  <-> 738000%Z = 738365%Z.
Proof.
  apply (binary64_years_zero_iff (fun x _ => x) 738000%Z 738365%Z).
  discriminate.
Defined.

(** ** The rate aggregation at its edges *)

(** On doubles, a frame too short for a change (no row, or a single row) has
    the inflation rate NaN, and an empty frame has the interest rate NaN:
    the mean of nothing is [0 / 0]. *)
Lemma short_series_rate_is_nan (libm_pow : float -> float -> float) (x : float) :
  PrimFloat.is_nan (inflation_rate_of (A_num := binary64 libm_pow) []) = true
  /\ PrimFloat.is_nan (inflation_rate_of (A_num := binary64 libm_pow) [x]) = true
  /\ PrimFloat.is_nan (interest_rate_of (A_num := binary64 libm_pow) []) = true.
Proof.
  split; [|split]; try (vm_compute; reflexivity).
  unfold inflation_rate_of, pct_change. cbn [map].
  destruct (observed (A_num := binary64 libm_pow) x); vm_compute; reflexivity.
Qed.

Section Binary64NaN.

Local Open Scope float_scope.

Lemma float_is_nan (x : float) : PrimFloat.is_nan x = true -> x = nan.
Proof.
  intros H. apply Prim2SF_inj. unfold PrimFloat.is_nan in H.
  rewrite FloatAxioms.eqb_spec in H. change (Prim2SF nan) with S754_nan.
  destruct (Prim2SF x) as [s|s| |s m e]; try reflexivity;
    try (destruct s; discriminate H).
  unfold SFeqb, SFcompare in H.
  destruct s; rewrite Z.compare_refl, Pos.compare_cont_refl in H; discriminate H.
Qed.

Lemma float_div_nan (x : float) : x / nan = nan.
Proof.
  apply Prim2SF_inj. rewrite div_spec.
  change (Prim2SF nan) with S754_nan.
  now destruct (Prim2SF x).
Qed.

(** Against an inflation rate that is NaN every real return is NaN. *)
Lemma calculate_real_return_nan (libm_pow : float -> float -> float) (annual inflation : float) :
  PrimFloat.is_nan inflation = true ->
  calculate_real_return (A_num := binary64 libm_pow) annual inflation = nan.
Proof.
  intros H. unfold calculate_real_return. simpl.
  apply float_is_nan in H. subst inflation.
  change (float_of_Z 1 + nan) with nan.
  rewrite float_div_nan. reflexivity.
Qed.

End Binary64NaN.

(** A short inflation frame is not treated as a failure.  On doubles, when
    the Turkish CPI frame has fewer than two rows, everything else is there
    and the range is not zero years long, the run goes through: it returns
    normally and presents the report and the chart.  The report of BIST 100
    has the total return of the index, NaN as the annual real return, and
    the final value computed from NaN; the report of S&P 500 is the one of a
    complete run. *)
Theorem main_reports_nan_for_short_series :
  forall (libm_pow : float -> float -> float) (w : world float)
         (initial_investment_tl : float) (start_date end_date : date)
         (i f : float) (rest ti ui tr ur : list float)
         (b0 b1 : float) (brest : list float) (s0 s1 : float) (srest : list float),
    yf_download w "USDTRY=X" start_date end_date = Some (i :: f :: rest) ->
    pdr_get_data_fred w "TURCPIALLMINMEI" start_date end_date = Some ti ->
    pdr_get_data_fred w "CPIAUCSL" start_date end_date = Some ui ->
    pdr_get_data_fred w "IR3TIB01TRM156N" start_date end_date = Some tr ->
    pdr_get_data_fred w "FEDFUNDS" start_date end_date = Some ur ->
    yf_download w "XU100.IS" start_date end_date = Some (b0 :: b1 :: brest) ->
    yf_download w "^GSPC" start_date end_date = Some (s0 :: s1 :: srest) ->
    is_zero (Arith := binary64 libm_pow)
      (years_of (A_num := binary64 libm_pow) start_date end_date) = false ->
    (List.length ti < 2)%nat ->
    let years := years_of (A_num := binary64 libm_pow) start_date end_date in
    let initial_investment_usd := (initial_investment_tl / i)%float in
    exists s_return s_real s_final : float,
      fst (calculate_returns (A_num := binary64 libm_pow) w "^GSPC"
             initial_investment_usd start_date end_date
             (inflation_rate_of (A_num := binary64 libm_pow) ui)
             (interest_rate_of (A_num := binary64 libm_pow) ur) [])
      = Returned (Some s_return, Some s_real, Some s_final)
      /\ main (A_num := binary64 libm_pow) w initial_investment_tl
           start_date end_date []
         = (Returned tt,
            requests start_date end_date
            ++ report_log (A_num := binary64 libm_pow)
                 initial_investment_tl i (last (f :: rest) i)
                 ((last (b1 :: brest) b0 - b0) / b0)%float
                 nan
                 (initial_investment_usd * libm_pow nan years)%float
                 s_return s_real s_final)
      /\ nth_error (report_log (A_num := binary64 libm_pow)
                      initial_investment_tl i (last (f :: rest) i)
                      ((last (b1 :: brest) b0 - b0) / b0)%float
                      nan
                      (initial_investment_usd * libm_pow nan years)%float
                      s_return s_real s_final) 5
         = Some (Print (Annual_real_return nan)).
Proof.
  intros libm_pow w inv s e i f rest ti ui tr ur b0 b1 brest s0 s1 srest
         Husd Hti Hui Htr Hur Hb Hs Hz Hshort years initial_investment_usd.
  subst years initial_investment_usd.
  pose proof (@main_presents_results float (binary64 libm_pow) w inv s e i f rest
                ti ui tr ur b0 b1 brest s0 s1 srest Husd Hti Hui Htr Hur Hb Hs Hz) as H.
  unfold computed in H. rewrite H. clear H.
  assert (Hnan : PrimFloat.is_nan (inflation_rate_of (A_num := binary64 libm_pow) ti) = true).
  { destruct ti as [|x [|y ti]]; simpl in Hshort; try lia;
      apply (short_series_rate_is_nan libm_pow 0%float)
      || apply (short_series_rate_is_nan libm_pow x). }
  rewrite (calculate_real_return_nan libm_pow _ _ Hnan).
  rewrite calculate_returns_cases. unfold classify. rewrite Hz, Hs.
  unfold computed. do 3 eexists.
  split; [reflexivity|]. split; reflexivity.
Qed.

Lemma main_reports_nan_for_short_series_witness :
  exists s_return s_real s_final : float,
    fst (calculate_returns (A_num := binary64 (fun x _ => x))
           (constant_world (Some [30; 33]%float) (Some [100]%float)) "^GSPC"
           (1000 / 30)%float 738000%Z 738365%Z
           (inflation_rate_of (A_num := binary64 (fun x _ => x)) [100]%float)
           (interest_rate_of (A_num := binary64 (fun x _ => x)) [100]%float) [])
    = Returned (Some s_return, Some s_real, Some s_final)
    /\ main (A_num := binary64 (fun x _ => x))
         (constant_world (Some [30; 33]%float) (Some [100]%float))
         1000%float 738000%Z 738365%Z []
       = (Returned tt,
          requests 738000%Z 738365%Z
          ++ report_log (A_num := binary64 (fun x _ => x))
               1000%float 30%float (last [33]%float 30%float)
               ((last [33] 30 - 30) / 30)%float
               nan
               (1000 / 30 * nan)%float
               s_return s_real s_final)
    /\ nth_error (report_log (A_num := binary64 (fun x _ => x))
                    1000%float 30%float (last [33]%float 30%float)
                    ((last [33] 30 - 30) / 30)%float
                    nan
                    (1000 / 30 * nan)%float
                    s_return s_real s_final) 5
       = Some (Print (Annual_real_return nan)).
Proof.
  apply (@main_reports_nan_for_short_series (fun x _ => x)
           (constant_world (Some [30; 33]%float) (Some [100]%float))
           1000%float 738000%Z 738365%Z 30%float 33%float []
           [100]%float [100]%float [100]%float [100]%float
           30%float 33%float [] 30%float 33%float []); try reflexivity.
  simpl. lia.
Defined.

Section ExactIndex.

Local Open Scope R_scope.
Local Existing Instance exact.

(** Rescaling the readings leaves the relative changes as they are. *)
Lemma relative_changes_rebased (k : R) (series : list R) :
  k <> 0 -> Forall (fun x => x <> 0) series ->
  map relative_change (consecutive_pairs (map (Rmult k) series))
  = map relative_change (consecutive_pairs series).
Proof.
  intros Hk Hseries. unfold consecutive_pairs.
  induction Hseries as [|x rows Hx Hrows IH]; [reflexivity|].
  destruct rows as [|y rows]; [reflexivity|].
  cbn [map tl combine relative_change] in *. f_equal.
  - cbn [div sub mul of_Z exact]. field. split; assumption.
  - exact IH.
Qed.

(** Equal readings have relative change zero. *)
Lemma relative_changes_constant (c : R) (n : nat) :
  c <> 0 ->
  map relative_change (consecutive_pairs (repeat c (S n))) = repeat 0 n.
Proof.
  intros Hc. unfold consecutive_pairs.
  induction n as [|n IH]; [reflexivity|].
  cbn [repeat map tl combine relative_change] in *. f_equal.
  - cbn [div sub of_Z exact]. field. exact Hc.
  - exact IH.
Qed.

Lemma fold_left_Rplus_zeros (n : nat) : fold_left Rplus (repeat 0 n) 0 = 0.
Proof.
  induction n as [|n IH]; [reflexivity|].
  simpl. now rewrite Rplus_0_l.
Qed.

End ExactIndex.

(** The inflation rate does not depend on the base of the index, and flat
    prices mean no inflation (exact arithmetic).  Multiplying every reading
    of a series of nonzero readings by the same nonzero factor leaves the
    aggregated inflation rate unchanged; a series of two or more equal
    nonzero readings has inflation rate zero. *)
Theorem inflation_rate_of_index :
  (forall (k : R) (series : list R),
      k <> 0%R -> Forall (fun x => x <> 0%R) series ->
      inflation_rate_of (A_num := exact) (map (Rmult k) series)
      = inflation_rate_of (A_num := exact) series)
  /\ (forall (c : R) (n : nat),
         c <> 0%R ->
         inflation_rate_of (A_num := exact) (repeat c (S (S n))) = 0%R).
Proof.
  split.
  - intros k series Hk Hseries. rewrite !exact_inflation_rate_of.
    now rewrite relative_changes_rebased.
  - intros c n Hc. rewrite exact_inflation_rate_of.
    rewrite (relative_changes_constant (S n) Hc).
    unfold arithmetic_mean. cbn [add div mul of_Z exact].
    rewrite fold_left_Rplus_zeros. unfold Rdiv. now rewrite !Rmult_0_l.
Qed.

Lemma inflation_rate_of_index_witness :
  inflation_rate_of (A_num := exact) (map (Rmult 2) [100; 101; 102]%R)
  = inflation_rate_of (A_num := exact) [100; 101; 102]%R
  /\ inflation_rate_of (A_num := exact) (repeat 100%R 3) = 0%R.
Proof.
  destruct inflation_rate_of_index as (rebased & flat). split.
  - apply (rebased 2%R [100; 101; 102]%R); [lra|repeat constructor; lra].
  - apply (flat 100%R 1%nat). lra.
Defined.

(** ** The amount invested and the amount reported *)

(** The returns are rates: the total return, the real annual return, the
    exception if any, and the log of a call do not depend on the amount
    invested; in exact arithmetic the final value is proportional to it. *)
Theorem calculate_returns_scales_with_investment :
  (forall (num : Type) (A_num : Arith num) (w : world num) (ticker : string)
          (investment1 investment2 : num) (start_date end_date : date)
          (inflation_rate interest_rate : num) (log : list (event num)),
      snd (calculate_returns w ticker investment1 start_date end_date
             inflation_rate interest_rate log)
      = snd (calculate_returns w ticker investment2 start_date end_date
               inflation_rate interest_rate log)
      /\ match fst (calculate_returns w ticker investment1 start_date end_date
                      inflation_rate interest_rate log),
               fst (calculate_returns w ticker investment2 start_date end_date
                      inflation_rate interest_rate log)
         with
         | Returned (total1, real1, _), Returned (total2, real2, _) =>
             total1 = total2 /\ real1 = real2
         | Raised e1, Raised e2 => e1 = e2
         | _, _ => False
         end)
  /\ (forall (w : world R) (ticker : string) (factor investment : R)
             (start_date end_date : date) (inflation_rate interest_rate : R)
             (log : list (event R)),
         match fst (calculate_returns (A_num := exact) w ticker investment
                      start_date end_date inflation_rate interest_rate log),
               fst (calculate_returns (A_num := exact) w ticker (factor * investment)%R
                      start_date end_date inflation_rate interest_rate log)
         with
         | Returned (_, _, Some final), Returned (_, _, Some scaled) =>
             scaled = (factor * final)%R
         | Returned (_, _, None), Returned (_, _, None) => True
         | Raised e1, Raised e2 => e1 = e2
         | _, _ => False
         end).
Proof.
  split.
  - intros num A_num w ticker inv1 inv2 s e infl ir log.
    rewrite !calculate_returns_cases.
    destruct (classify w ticker s e); simpl; auto.
  - intros w ticker c inv s e infl ir log.
    rewrite !calculate_returns_cases.
    destruct (classify w ticker s e); simpl; auto.
    apply Rmult_assoc.
Qed.


